(** * Tool-invocation guardrails: a shallow embedding of [security/validator.py]

    The module decides whether an agent's proposed tool call may run.  It is
    duck-typed Python over JSON-like data, so the embedding works on a small
    universe of Python values, an exception result type for the calls that can
    raise, and explicit passing of the one piece of shared mutable state, the
    [_recent_calls] table. *)

From Stdlib Require Import ZArith QArith Lqa Ascii String List Permutation.
From Stdlib Require Import DecimalString HexadecimalString.
From stdpp Require Import gmap strings list sorting.

Local Open Scope string_scope.

#[local] Set Warnings "-register-all".

(** ** Python values *)

(** Dictionaries keep their insertion order (it is observable through [str]
    and through [json.dumps] without [sort_keys]); their keys are strings, as
    in every dictionary the module reads (JSON policy, run configuration,
    tool call).  A well-formed dictionary has no repeated key, see [wf_val].
    [PObj] is an instance of an ordinary class: it has an identity, a class
    name and data attributes, and none of the special methods ([__bool__],
    [__eq__], [__repr__], [get], ...).  Strings are sequences of code points
    below 256.  Floats are left out of the value universe; the clock readings
    stored in the call table are rationals. *)
Inductive PyVal : Type :=
| PNone
| PBool (b : bool)
| PInt (z : Z)
| PStr (s : string)
| PList (l : list PyVal)
| PDict (d : list (string * PyVal))
| PObj (addr : N) (cls : string) (attrs : list (string * PyVal)).

(** ** Exceptions *)

Inductive exn : Type := AttributeError | TypeError | KeyError.

Inductive result (A : Type) : Type :=
| Ok (a : A)
| Raise (e : exn).
Arguments Ok {A} a.
Arguments Raise {A} e.

#[global] Instance result_ret : MRet result := fun A a => Ok a.

#[global] Instance result_bind : MBind result := fun A B k r =>
  match r with
  | Ok a => k a
  | Raise e => Raise e
  end.

(** [try: r except Exception: h] *)
Definition try_except {A} (r : result A) (h : result A) : result A :=
  match r with
  | Ok a => Ok a
  | Raise _ => h
  end.

Fixpoint mapM {A B} (f : A -> result B) (l : list A) : result (list B) :=
  match l with
  | [] => Ok []
  | x :: l' => y ← f x; ys ← mapM f l'; Ok (y :: ys)
  end.

(** ** Built-in operations *)

Module Py.

(** [bool(v)] *)
Definition truthy (v : PyVal) : bool :=
  match v with
  | PNone => false
  | PBool b => b
  | PInt z => negb (z =? 0)%Z
  | PStr s => negb (s =? EmptyString)
  | PList l => match l with [] => false | _ => true end
  | PDict d => match d with [] => false | _ => true end
  | PObj _ _ _ => true
  end.

(** [v or k]: the right operand is evaluated only when [v] is false. *)
Definition or_else (v : PyVal) (k : result PyVal) : result PyVal :=
  if truthy v then Ok v else k.

Definition hashable (v : PyVal) : bool :=
  match v with
  | PList _ | PDict _ => false
  | _ => true
  end.

Fixpoint assoc_get (k : string) (d : list (string * PyVal)) : option PyVal :=
  match d with
  | [] => None
  | (k', v) :: d' => if k' =? k then Some v else assoc_get k d'
  end.

(** [o.get(k, dflt)] for a string literal [k].  Only dictionaries have [get]. *)
Definition get (o : PyVal) (k : string) (dflt : PyVal) : result PyVal :=
  match o with
  | PDict d => Ok (default dflt (assoc_get k d))
  | _ => Raise AttributeError
  end.

(** [o.get(key, dflt)] for an arbitrary key value.  Looking up an unhashable
    key raises; a hashable key that is not a string equals no key. *)
Definition get_key (o : PyVal) (key : PyVal) (dflt : PyVal) : result PyVal :=
  match o with
  | PDict d =>
      if hashable key then
        match key with
        | PStr k => Ok (default dflt (assoc_get k d))
        | _ => Ok dflt
        end
      else Raise TypeError
  | _ => Raise AttributeError
  end.

(** [getattr(o, k, dflt)]; the built-in types have no attribute the module
    asks for ([name], [content]). *)
Definition getattr (o : PyVal) (k : string) (dflt : PyVal) : PyVal :=
  match o with
  | PObj _ _ attrs => default dflt (assoc_get k attrs)
  | _ => dflt
  end.

Definition hasattr (o : PyVal) (k : string) : bool :=
  match o with
  | PObj _ _ attrs => match assoc_get k attrs with Some _ => true | None => false end
  | _ => false
  end.

Definition isinstance_dict (v : PyVal) : bool :=
  match v with PDict _ => true | _ => false end.

Definition isinstance_list (v : PyVal) : bool :=
  match v with PList _ => true | _ => false end.

(** *** Strings *)

Definition code (c : ascii) : N := N_of_ascii c.

Definition dquote : ascii := "034"%char.

(** [str.isspace] on one code point below 256 *)
Definition is_space (c : ascii) : bool :=
  let n := code c in
  ((9 <=? n) && (n <=? 13) || (28 <=? n) && (n <=? 32)
   || (n =? 133) || (n =? 160))%N.

(** [str.lower] on one code point below 256: A-Z and the Latin-1 capitals *)
Definition lower_char (c : ascii) : ascii :=
  let n := code c in
  if ((65 <=? n) && (n <=? 90)
      || (192 <=? n) && (n <=? 222) && negb (n =? 215))%N
  then ascii_of_N (n + 32) else c.

Fixpoint lower (s : string) : string :=
  match s with
  | EmptyString => EmptyString
  | String c s' => String (lower_char c) (lower s')
  end.

(** [s.split()]: maximal runs of non-whitespace; [cur] is the run being read *)
Fixpoint split_from (cur : string) (s : string) : list string :=
  match s with
  | EmptyString => if cur =? EmptyString then [] else [cur]
  | String c s' =>
      if is_space c
      then (if cur =? EmptyString then split_from EmptyString s' else cur :: split_from EmptyString s')
      else split_from (cur ++ String c EmptyString) s'
  end.

Definition split (s : string) : list string := split_from EmptyString s.

(** [sep.join(l)] *)
Definition join (sep : string) (l : list string) : string := String.concat sep l.

Fixpoint contains_char (c : ascii) (s : string) : bool :=
  match s with
  | EmptyString => false
  | String c' s' => (c' =? c)%char || contains_char c s'
  end.

(** [sub in s] for two strings *)
Fixpoint is_substring (sub s : string) : bool :=
  String.prefix sub s ||
  match s with
  | EmptyString => false
  | String _ s' => is_substring sub s'
  end.

Definition hex_digit (n : N) : ascii :=
  if (n <? 10)%N then ascii_of_N (48 + n) else ascii_of_N (87 + n).

Definition hex2 (c : ascii) : string :=
  String (hex_digit (code c / 16)) (String (hex_digit (code c mod 16)) EmptyString).

Definition int_str (z : Z) : string := DecimalString.NilZero.string_of_int (Z.to_int z).

Definition hex_str (n : N) : string :=
  HexadecimalString.NilZero.string_of_uint (N.to_hex_uint n).

(** [str.isprintable] on one code point below 256 *)
Definition printable (c : ascii) : bool :=
  let n := code c in
  ((32 <=? n) && (n <=? 126) || (161 <=? n) && negb (n =? 173))%N.

(** [repr] of a string: single quotes unless the text has a single quote and
    no double quote *)
Definition repr_quote (s : string) : ascii :=
  if contains_char "'" s && negb (contains_char dquote s) then dquote else "'"%char.

Definition repr_char (q c : ascii) : string :=
  if (c =? q)%char || (c =? "\")%char then String "\" (String c EmptyString)
  else if (code c =? 9)%N then "\t"
  else if (code c =? 10)%N then "\n"
  else if (code c =? 13)%N then "\r"
  else if printable c then String c EmptyString
  else "\x" ++ hex2 c.

Fixpoint repr_body (q : ascii) (s : string) : string :=
  match s with
  | EmptyString => EmptyString
  | String c s' => repr_char q c ++ repr_body q s'
  end.

Definition repr_str (s : string) : string :=
  let q := repr_quote s in
  String q (repr_body q s ++ String q EmptyString).

(** [repr(v)] *)
Fixpoint repr (v : PyVal) : string :=
  match v with
  | PNone => "None"
  | PBool b => if b then "True" else "False"
  | PInt z => int_str z
  | PStr s => repr_str s
  | PList l => "[" ++ join ", " (List.map repr l) ++ "]"
  | PDict d =>
      "{" ++ join ", " (List.map (fun '(k, x) => repr_str k ++ ": " ++ repr x) d) ++ "}"
  | PObj a c _ => "<" ++ c ++ " object at 0x" ++ hex_str a ++ ">"
  end.

(** [str(v)], which is also what an f-string field renders *)
Definition str (v : PyVal) : string :=
  match v with
  | PStr s => s
  | _ => repr v
  end.

(** *** Equality and membership *)

(** [a == b]: [bool] is a subtype of [int]; dictionaries compare without
    regard to order; plain objects compare by identity. *)
Fixpoint eq (a b : PyVal) : bool :=
  match a, b with
  | PNone, PNone => true
  | PBool x, PBool y => Bool.eqb x y
  | PBool x, PInt z | PInt z, PBool x => (z =? (if x then 1 else 0))%Z
  | PInt x, PInt y => (x =? y)%Z
  | PStr x, PStr y => x =? y
  | PList l1, PList l2 =>
      (fix go (l1 l2 : list PyVal) : bool :=
         match l1, l2 with
         | [], [] => true
         | x :: l1', y :: l2' => eq x y && go l1' l2'
         | _, _ => false
         end) l1 l2
  | PDict d1, PDict d2 =>
      (length d1 =? length d2)%nat &&
      (fix go (d : list (string * PyVal)) : bool :=
         match d with
         | [] => true
         | (k, x) :: d' =>
             match assoc_get k d2 with
             | Some y => eq x y && go d'
             | None => false
             end
         end) d1
  | PObj a _ _, PObj b _ _ => (a =? b)%N
  | _, _ => false
  end.

(** [x in (v1, v2, ...)] and [x in l] for a list *)
Definition in_list (x : PyVal) (l : list PyVal) : bool := existsb (eq x) l.

(** [x in c] *)
Definition contains (c : PyVal) (x : PyVal) : result bool :=
  match c with
  | PList l => Ok (in_list x l)
  | PDict d =>
      if hashable x then
        match x with
        | PStr k => Ok (bool_decide (is_Some (assoc_get k d)))
        | _ => Ok false
        end
      else Raise TypeError
  | PStr s =>
      match x with
      | PStr sub => Ok (is_substring sub s)
      | _ => Raise TypeError
      end
  | _ => Raise TypeError
  end.

End Py.

(** ** [json.dumps] *)

Module Json.

(** One character of a string under [ensure_ascii=True]. *)
Definition escape_char (c : ascii) : string :=
  let n := Py.code c in
  if (c =? Py.dquote)%char then String "\" (String Py.dquote EmptyString)
  else if (c =? "\")%char then "\\"
  else if (n =? 10)%N then "\n"
  else if (n =? 13)%N then "\r"
  else if (n =? 9)%N then "\t"
  else if (n =? 8)%N then "\b"
  else if (n =? 12)%N then "\f"
  else if ((32 <=? n) && (n <=? 126))%N then String c EmptyString
  else "\u00" ++ Py.hex2 c.

Fixpoint escape (s : string) : string :=
  match s with
  | EmptyString => EmptyString
  | String c s' => escape_char c ++ escape s'
  end.

Definition encode_str (s : string) : string :=
  String Py.dquote (escape s ++ String Py.dquote EmptyString).

(** Order of dictionary items under [sort_keys=True]: by key, code point by
    code point. *)
Definition key_le {V} : relation (string * V) :=
  fun x y => Is_true (String.leb x.1 y.1).

Definition sort_items {V} (items : list (string * V)) : list (string * V) :=
  merge_sort key_le items.

Definition encode_item (kv : string * result string) : result string :=
  v ← kv.2; Ok (encode_str kv.1 ++ ": " ++ v).

(** [json.dumps(v, sort_keys=sort_keys)] with the default separators.  A value
    the encoder does not know (here: an object) raises [TypeError].  The
    encoder orders the items of a dictionary and then encodes them; the
    embedding encodes each value where it stands and orders the encoded items,
    which gives the same text and keeps the recursion structural. *)
Fixpoint dumps (sort_keys : bool) (v : PyVal) : result string :=
  match v with
  | PNone => Ok "null"
  | PBool b => Ok (if b then "true" else "false")
  | PInt z => Ok (Py.int_str z)
  | PStr s => Ok (encode_str s)
  | PList l =>
      elems ← mapM (dumps sort_keys) l;
      Ok ("[" ++ Py.join ", " elems ++ "]")
  | PDict d =>
      let items := List.map (fun '(k, x) => (k, dumps sort_keys x)) d in
      elems ← mapM encode_item (if sort_keys then sort_items items else items);
      Ok ("{" ++ Py.join ", " elems ++ "}")
  | PObj _ _ _ => Raise TypeError
  end.

End Json.

(** ** The module *)

(** The call table [_recent_calls]: fingerprint to the clock reading of the
    last recorded sighting.  Clock readings ([time.time()]) are rationals. *)
Definition Qltb (x y : Q) : bool := negb (Qle_bool y x).

(** A value used as a number next to a float: [int] and [bool] are, the rest
    makes the comparison or the subtraction raise [TypeError]. *)
Definition as_number (v : PyVal) : option Q :=
  match v with
  | PInt z => Some (inject_Z z)
  | PBool b => Some (inject_Z (if b then 1 else 0))
  | _ => None
  end.

Section Validator.

(** What [_load_policy()] returns: the parsed [tool_policy.json] (any JSON
    value), or the built-in fallback when the file cannot be read. *)
Variable policy : PyVal.

Definition _load_policy : PyVal := policy.

Definition get_role_from_config (config : PyVal) : result PyVal :=
  let attempt : result (option PyVal) :=
    cfg ← (if Py.truthy config
           then Py.get config "configurable" (PDict [])
           else Ok (PDict []));
    first ← Py.get cfg "role" PNone;
    role ← Py.or_else first
             (meta ← Py.get config "metadata" (PDict []); Py.get meta "role" PNone);
    Ok (if Py.truthy role then Some role else None) in
  match try_except attempt (Ok None) with
  | Ok (Some role) => Ok role
  | _ => Py.get _load_policy "default_role" (PStr "researcher")
  end.

Definition is_tool_name (obj : PyVal) : PyVal :=
  if negb (Py.truthy obj) then PStr EmptyString
  else match obj with
       | PDict d => default (PStr EmptyString) (Py.assoc_get "name" d)
       | _ =>
           let name := Py.getattr obj "name" (PStr EmptyString) in
           if Py.truthy name then name else PStr EmptyString
       end.

Definition is_tool_allowed_for_role (role tool_name : PyVal) : result bool :=
  roles ← Py.get _load_policy "roles" (PDict []);
  role_cfg ← Py.get_key roles role (PDict []);
  allowed ← Py.get role_cfg "allowed_tools" (PList []);
  if negb (Py.truthy allowed) then Ok false
  else
    star ← Py.contains allowed (PStr "*");
    if star : bool then Ok true else Py.contains allowed tool_name.

(** The loop of [filter_tools_by_role]; [filtered] is the list being built. *)
Fixpoint filter_loop (role : PyVal) (tools filtered : list PyVal)
  : result (list PyVal) :=
  match tools with
  | [] => Ok filtered
  | t :: rest =>
      let name := is_tool_name t in
      if negb (Py.truthy name) then filter_loop role rest filtered
      else
        ok ← is_tool_allowed_for_role role name;
        filter_loop role rest (if ok : bool then filtered ++ [t] else filtered)
  end.

Definition filter_tools_by_role (config : PyVal) (tools : list PyVal)
  : result (list PyVal) :=
  role ← get_role_from_config config;
  filter_loop role tools [].

Definition _call_fingerprint (tool_call : PyVal) : result string :=
  name ← Py.get tool_call "name" (PStr EmptyString);
  args ← Py.get tool_call "args" (PDict []);
  let args_str :=
    match Json.dumps true args with
    | Ok s => s
    | Raise _ => Py.str args
    end in
  Ok (Py.str name ++ ":" ++ args_str).

(** [last and ...]: a float is true unless it is zero. *)
Definition float_truthy (x : Q) : bool := negb (Qeq_bool x 0).

(** The pruning loop: collect the keys older than [cutoff], then pop them. *)
Definition prune (cutoff : Q) (calls : gmap string Q) : gmap string Q :=
  let keys := (List.filter (fun kv => Qltb kv.2 cutoff) (map_to_list calls)).*1 in
  foldr delete calls keys.

(** [is_duplicate_call], with the clock reading [now] and the table passed
    in; the table is returned whether or not the call raises. *)
Definition is_duplicate_call (tool_call : PyVal) (now : Q) (calls : gmap string Q)
  : gmap string Q * result bool :=
  match (fp ← _call_fingerprint tool_call;
         window ← Py.get _load_policy "duplicate_window_seconds" (PInt 300);
         Ok (fp, window)) with
  | Raise e => (calls, Raise e)
  | Ok (fp, window) =>
      let in_window : result bool :=
        match calls !! fp with
        | Some last =>
            if float_truthy last then
              match as_number window with
              | Some w => Ok (Qltb (now - last) w)
              | None => Raise TypeError
              end
            else Ok false
        | None => Ok false
        end in
      match in_window with
      | Raise e => (calls, Raise e)
      | Ok true => (calls, Ok true)
      | Ok false =>
          let calls := <[fp := now]> calls in
          if (1000 <? size calls)%nat then
            match as_number window with
            | Some w => (prune (now - w) calls, Ok false)
            | None => (calls, Raise TypeError)
            end
          else (calls, Ok false)
      end
  end.

(** The text the alignment heuristic reads from the messages. *)
Definition user_text (messages : list PyVal) : string :=
  Py.join " "
    (List.map (fun m => Py.str (Py.getattr m "content" PNone))
       (List.filter (fun m => Py.hasattr m "content") messages)).

(** [{t.lower() for t in text.split() if len(t) > 3}] *)
Definition tokens (text : string) : gset string :=
  list_to_set
    (List.map Py.lower
       (List.filter (fun t => (3 <? String.length t)%nat) (Py.split text))).

(** The alignment block of [validate_tool_call]: [true] when it returns the
    denial, [false] when control falls through to the final [return]. *)
Definition intent_unaligned (tool_call messages : PyVal) : bool :=
  match messages with
  | PList ms =>
      if Py.truthy messages then
        let attempt : result bool :=
          let user_text := user_text ms in
          args ← Py.get tool_call "args" (PDict []);
          args_text ← Json.dumps false args;
          let user_tokens := tokens user_text in
          let arg_tokens := tokens args_text in
          Ok (bool_decide (user_tokens ≠ ∅) && bool_decide (arg_tokens ≠ ∅)
              && bool_decide (user_tokens ## arg_tokens)) in
        match attempt with
        | Ok flagged => flagged
        | Raise _ => false
        end
      else false
  | _ => false
  end.

Definition validate_tool_call (config tool_call messages : PyVal) (phase : string)
    (now : Q) (calls : gmap string Q) : gmap string Q * result (bool * string) :=
  match tool_call with
  | PDict d =>
      match Py.assoc_get "name" d with
      | None => (calls, Ok (false, "Malformed tool_call"))
      | Some name =>
          match get_role_from_config config with
          | Raise e => (calls, Raise e)
          | Ok role =>
              match is_tool_allowed_for_role role name with
              | Raise e => (calls, Raise e)
              | Ok false =>
                  (calls, Ok (false, "Tool '" ++ Py.str name
                                     ++ "' not allowed for role '" ++ Py.str role ++ "'"))
              | Ok true =>
                  if phase =? "clarify" then
                    (calls, Ok (false, "Tools prohibited during clarification phase"))
                  else if (phase =? "research")
                          && negb (Py.in_list name
                                     [PStr "ConductResearch"; PStr "ResearchComplete"]) then
                    (calls, Ok (false, "Tool '" ++ Py.str name
                                       ++ "' not allowed during research orchestration"))
                  else
                    match is_duplicate_call tool_call now calls with
                    | (calls, Ok true) => (calls, Ok (false, "Duplicate tool call suppressed"))
                    | (calls, Raise _) => (calls, Ok (false, "Duplicate check failed"))
                    | (calls, Ok false) =>
                        if intent_unaligned tool_call messages then
                          (calls, Ok (false, "Tool call appears unrelated to user intent"))
                        else (calls, Ok (true, "allowed"))
                    end
              end
          end
      end
  | _ => (calls, Ok (false, "Malformed tool_call"))
  end.

End Validator.

(** ** Shapes of the inputs *)

(** [isinstance(tool_call, dict) and "name" in tool_call] *)
Definition has_name_key (tool_call : PyVal) : bool :=
  match tool_call with
  | PDict d => bool_decide (is_Some (Py.assoc_get "name" d))
  | _ => false
  end.

(** The tool call carries a non-empty name string. *)
Definition has_nonempty_name (tool_call : PyVal) : bool :=
  match tool_call with
  | PDict d =>
      match Py.assoc_get "name" d with
      | Some (PStr s) => negb (s =? EmptyString)
      | _ => false
      end
  | _ => false
  end.

(** A role entry of the policy document: [{"allowed_tools": [...]}]. *)
Definition role_config_ok (cfg : PyVal) : bool :=
  match cfg with
  | PDict c =>
      match default (PList []) (Py.assoc_get "allowed_tools" c) with
      | PList _ => true
      | _ => false
      end
  | _ => false
  end.

(** The policy document has the shape
    [{"roles": {role: {"allowed_tools": [...]}}, ...}]; every field may be
    missing. *)
Definition policy_ok (policy : PyVal) : bool :=
  match policy with
  | PDict p =>
      match default (PDict []) (Py.assoc_get "roles" p) with
      | PDict roles => forallb (fun kv => role_config_ok kv.2) roles
      | _ => false
      end
  | _ => false
  end.

(** The policy's duplicate window, when it is a number. *)
Definition policy_window (policy : PyVal) : option Q :=
  match policy with
  | PDict p => as_number (default (PInt 300) (Py.assoc_get "duplicate_window_seconds" p))
  | _ => None
  end.

(** A policy that lets the default role call every tool. *)
Definition wildcard_policy : PyVal :=
  PDict [("roles", PDict [("researcher", PDict [("allowed_tools", PList [PStr "*"])])]);
         ("default_role", PStr "researcher");
         ("duplicate_window_seconds", PInt 300)].

(** The policy of the end-to-end scenario. *)
Definition researcher_policy : PyVal :=
  PDict [("roles",
          PDict [("researcher",
                  PDict [("allowed_tools",
                          PList [PStr "ConductResearch"; PStr "ResearchComplete"])])]);
         ("default_role", PStr "researcher");
         ("duplicate_window_seconds", PInt 300)].

(** ** The role resolver as the specification words it *)

(** Reading the nested field [section.role] off a configuration object: a
    usable value, nothing usable, or a lookup that fails. *)
Inductive lookup : Type :=
| Found (v : PyVal)
| Missing
| Failed.

Definition nested_role (config : PyVal) (section : string) : lookup :=
  match config with
  | PDict c =>
      match Py.assoc_get section c with
      | None => Missing
      | Some (PDict s) =>
          match Py.assoc_get "role" s with
          | Some r => if Py.truthy r then Found r else Missing
          | None => Missing
          end
      | Some _ => Failed
      end
  | _ => Failed
  end.

(** [configurable.role] first, then [metadata.role]; a failed lookup ends the
    search at the default role. *)
Definition resolve_role (default_role config : PyVal) : PyVal :=
  match nested_role config "configurable" with
  | Found r => r
  | Failed => default_role
  | Missing =>
      match nested_role config "metadata" with
      | Found r => r
      | _ => default_role
      end
  end.

(** The permission check as a plain boolean, for use in [filter]. *)
Definition permitted (policy role name : PyVal) : bool :=
  match is_tool_allowed_for_role policy role name with
  | Ok b => b
  | Raise _ => false
  end.


(** ** The examples of the specification *)

Definition human_message (addr : N) (text : string) : PyVal :=
  PObj addr "HumanMessage" [("content", PStr text)].

Definition weather_messages : PyVal :=
  PList [human_message 1 "What is the weather in Paris today"].

Definition weather_call : PyVal :=
  PDict [("name", PStr "ConductResearch");
         ("args", PDict [("query", PStr "weather Paris forecast")])].

Definition summarize_messages : PyVal :=
  PList [human_message 2 "Summarize this document"].

Definition delete_call : PyVal :=
  PDict [("name", PStr "ConductResearch");
         ("args", PDict [("target", PStr "delete_all_records")])].


(** ** Sameness of arguments up to insertion order *)

(** No dictionary inside [v] repeats a key (no Python dictionary does). *)
Fixpoint wf_val (v : PyVal) : bool :=
  match v with
  | PList l => forallb wf_val l
  | PDict d =>
      bool_decide (NoDup d.*1) && forallb (fun '(_, x) => wf_val x) d
  | PObj _ _ attrs =>
      bool_decide (NoDup attrs.*1) && forallb (fun '(_, x) => wf_val x) attrs
  | _ => true
  end.

(** The same key/value pairs in any insertion order, at every depth. *)
Inductive same_value : PyVal -> PyVal -> Prop :=
| same_refl v : same_value v v
| same_list l1 l2 :
    Forall2 same_value l1 l2 -> same_value (PList l1) (PList l2)
| same_dict d1 d1' d2 :
    Permutation d1 d1' ->
    Forall2 (fun x y => x.1 = y.1 /\ same_value x.2 y.2) d1' d2 ->
    same_value (PDict d1) (PDict d2).

Definition call_args (d : list (string * PyVal)) : PyVal :=
  default (PDict []) (Py.assoc_get "args" d).

(** The example of the specification: the same two arguments in both orders. *)
Definition call_xy : list (string * PyVal) :=
  [("name", PStr "A"); ("args", PDict [("x", PInt 1); ("y", PInt 2)])].

Definition call_yx : list (string * PyVal) :=
  [("name", PStr "A"); ("args", PDict [("y", PInt 2); ("x", PInt 1)])].

(** Arguments that hold a value [json.dumps] cannot encode, in both orders. *)
Definition file_handle : PyVal := PObj 4096 "Handle" [].

Definition call_obj_ab : list (string * PyVal) :=
  [("name", PStr "A"); ("args", PDict [("a", file_handle); ("b", PInt 1)])].

Definition call_obj_ba : list (string * PyVal) :=
  [("name", PStr "A"); ("args", PDict [("b", PInt 1); ("a", file_handle)])].

(** ** Two threads in [is_duplicate_call] *)

(** A thread that runs [is_duplicate_call].  Computing the fingerprint, the
    window and the clock reading touches nothing shared.  The function holds
    no lock, so the interpreter may switch threads between the statement that
    reads the table, [last = _recent_calls.get(fp)], and the statements that
    test [last] and write the table. *)
Inductive thread : Type :=
| Ready (fp : string) (window : PyVal) (now : Q)
| Looked (fp : string) (window : PyVal) (now : Q) (last : option Q)
| Returned (r : result bool).

Definition start (policy tool_call : PyVal) (now : Q) : thread :=
  match (fp ← _call_fingerprint tool_call;
         window ← Py.get (_load_policy policy) "duplicate_window_seconds" (PInt 300);
         Ok (fp, window)) with
  | Ok (fp, window) => Ready fp window now
  | Raise e => Returned (Raise e)
  end.

Definition thread_step (t : thread) (calls : gmap string Q) : gmap string Q * thread :=
  match t with
  | Ready fp window now => (calls, Looked fp window now (calls !! fp))
  | Looked fp window now last =>
      let in_window : result bool :=
        match last with
        | Some last =>
            if float_truthy last then
              match as_number window with
              | Some w => Ok (Qltb (now - last) w)
              | None => Raise TypeError
              end
            else Ok false
        | None => Ok false
        end in
      match in_window with
      | Raise e => (calls, Returned (Raise e))
      | Ok true => (calls, Returned (Ok true))
      | Ok false =>
          let calls := <[fp := now]> calls in
          if (1000 <? size calls)%nat then
            match as_number window with
            | Some w => (prune (now - w) calls, Returned (Ok false))
            | None => (calls, Returned (Raise TypeError))
            end
          else (calls, Returned (Ok false))
      end
  | Returned r => (calls, t)
  end.

(** Two validation requests and the table they share. *)
Record system : Type := System {
  table : gmap string Q;
  thread_a : thread;
  thread_b : thread
}.

Inductive turn : Type := A | B.

Definition sched (s : system) (who : turn) : system :=
  match who with
  | A => let '(calls, t) := thread_step (thread_a s) (table s) in
         System calls t (thread_b s)
  | B => let '(calls, t) := thread_step (thread_b s) (table s) in
         System calls (thread_a s) t
  end.

Definition run (schedule : list turn) (s : system) : system :=
  fold_left sched schedule s.

Definition research_call : PyVal := PDict [("name", PStr "ConductResearch")].

(** ** The structured-output check *)

(** The test of the loop body: [s.get("type") == "json_schema" and
    s.get("strict")], as a truth value.  It raises when [s] has no [get]. *)
Definition strict_json_test (s : PyVal) : result bool :=
  ty ← Py.get s "type" PNone;
  if Py.eq ty (PStr "json_schema")
  then strict ← Py.get s "strict" PNone; Ok (Py.truthy strict)
  else Ok false.

(** The loop of [validate_structured_output_conflict]; a descriptor on which
    the test raises is skipped. *)
Fixpoint conflict_loop (schemas : list PyVal) (strict_json_count : nat) : nat :=
  match schemas with
  | [] => strict_json_count
  | s :: rest =>
      match strict_json_test s with
      | Ok true => conflict_loop rest (strict_json_count + 1)
      | Ok false => conflict_loop rest strict_json_count
      | Raise _ => conflict_loop rest strict_json_count
      end
  end.

Definition validate_structured_output_conflict (schemas : list PyVal) : bool * string :=
  if (1 <? conflict_loop schemas 0)%nat
  then (false, "Multiple strict json_schema response formats detected")
  else (true, "ok").

(** A descriptor that declares a strict [json_schema] format. *)
Definition strict_json (s : PyVal) : Prop :=
  exists d v,
    s = PDict d
    /\ Py.assoc_get "type" d = Some (PStr "json_schema")
    /\ Py.assoc_get "strict" d = Some v
    /\ Py.truthy v = true.

(** ** Loading the policy *)

Module Store.

(** The policy used when [tool_policy.json] cannot be read or parsed. *)
Definition fallback_policy : PyVal :=
  PDict [("roles", PDict []);
         ("default_role", PStr "researcher");
         ("duplicate_window_seconds", PInt 300)].

(** [_load_policy()] on the module global [_policy] ([None] until a policy is
    loaded).  [file] is what opening and parsing [tool_policy.json] gives at
    the time of the call: the parsed JSON value, or an exception.  The result
    is the new value of [_policy] and the value returned.  (A single thread:
    the re-check under the lock sees what the first check saw.) *)
Definition _load_policy (file : result PyVal) (_policy : PyVal) : PyVal * PyVal :=
  match _policy with
  | PNone =>
      let loaded :=
        match file with
        | Ok parsed => parsed
        | Raise _ => fallback_policy
        end in
      (loaded, loaded)
  | _ => (_policy, _policy)
  end.

(** Successive calls of [_load_policy()], the file read anew at each call;
    the values returned, in order. *)
Fixpoint loads (files : list (result PyVal)) (_policy : PyVal) : list PyVal :=
  match files with
  | [] => []
  | file :: rest =>
      let '(cached, returned) := _load_policy file _policy in
      returned :: loads rest cached
  end.

End Store.

(** ** Successive duplicate checks *)

(** The call table after the calls of [requests] (tool call and clock
    reading), checked one after the other. *)
Definition run_calls (policy : PyVal) (requests : list (PyVal * Q))
    (calls : gmap string Q) : gmap string Q :=
  fold_left (fun calls req => (is_duplicate_call policy req.1 req.2 calls).1)
    requests calls.

(** Whether the loop counts a descriptor. *)
Definition counts_as_strict (s : PyVal) : bool :=
  match strict_json_test s with
  | Ok true => true
  | _ => false
  end.

Definition conflict_verdict : bool * string :=
  (false, "Multiple strict json_schema response formats detected").

(** ** Clock readings *)

(** The readings [time.time()] gives in this era: positive multiples of
    [2^-22] seconds below [2^31] (every double from [2^30], January 2004, up
    to [2^31], January 2038, is one).  The difference of two of them, and the
    difference of one of them and a whole number of seconds from [0] up to
    [2^31], is again a double, so on these readings the float subtractions of
    [is_duplicate_call] give the exact difference. *)
Definition clock_reading (x : Q) : Prop :=
  exists n : Z, (0 < n < 2 ^ 53)%Z /\ (x == n # 4194304)%Q.

(** A configuration that names a list as the role. *)
Definition list_role_config : PyVal :=
  PDict [("configurable", PDict [("role", PList [PStr "admin"])])].

(** * Properties *)

Lemma eq_str_l s v : Py.eq (PStr s) v = true <-> v = PStr s.
Proof.
  destruct v; simpl; try (split; [discriminate | intros [=]]).
  rewrite String.eqb_eq. split; [intros -> | intros [= ->]]; reflexivity.
Qed.

Lemma in_list_str s l : Py.in_list (PStr s) l = true <-> In (PStr s) l.
Proof.
  unfold Py.in_list. rewrite existsb_exists. split.
  - intros (v & Hin & Heq). apply eq_str_l in Heq. now subst.
  - intros Hin. exists (PStr s). split; [assumption | now apply eq_str_l].
Qed.

Lemma assoc_get_In k v d : Py.assoc_get k d = Some v -> In (k, v) d.
Proof.
  induction d as [|[k' v'] d IH]; simpl; [discriminate |].
  destruct (String.eqb_spec k' k) as [-> | _].
  - intros [= ->]. now left.
  - intros H. right. auto.
Qed.

Lemma role_config_lookup roles k :
  forallb (fun kv => role_config_ok kv.2) roles = true ->
  role_config_ok (default (PDict []) (Py.assoc_get k roles)) = true.
Proof.
  intros Hall. destruct (Py.assoc_get k roles) as [cfg|] eqn:Hget; [|reflexivity].
  rewrite forallb_forall in Hall. exact (Hall _ (assoc_get_In _ _ _ Hget)).
Qed.

(** With a policy of the documented shape and a hashable role, the permission
    check returns. *)
Lemma is_tool_allowed_total policy role name :
  policy_ok policy = true -> Py.hashable role = true ->
  exists b, is_tool_allowed_for_role policy role name = Ok b.
Proof.
  intros Hpol Hhash. unfold is_tool_allowed_for_role, _load_policy.
  destruct policy as [| | | | |p|]; try discriminate. simpl in Hpol |- *.
  destruct (default (PDict []) (Py.assoc_get "roles" p)) as [| | | | |roles|] eqn:Hroles;
    try discriminate.
  unfold Py.get_key. rewrite Hhash.
  assert (Hcfg : forall cfg, role_config_ok cfg = true ->
            exists b, (allowed ← Py.get cfg "allowed_tools" (PList []);
                       if negb (Py.truthy allowed) then Ok false
                       else star ← Py.contains allowed (PStr "*");
                            if star : bool then Ok true
                            else Py.contains allowed name) = Ok b).
  { intros [| | | | |c|] Hc; try discriminate. simpl in Hc. unfold Py.get.
    destruct (default (PList []) (Py.assoc_get "allowed_tools" c)) as [| | | |l| |];
      try discriminate.
    destruct l as [|x l]; [simpl; eauto |].
    cbn [mbind result_bind Py.truthy negb Py.contains].
    destruct (Py.in_list (PStr "*") (x :: l)); eauto. }
  destruct role; try discriminate; cbn [mbind result_bind];
    try (apply (Hcfg (PDict [])); reflexivity).
  apply Hcfg. now apply role_config_lookup.
Qed.

(** The role resolver returns whenever the policy is a mapping. *)
Lemma get_role_total p config :
  exists role, get_role_from_config (PDict p) config = Ok role.
Proof.
  unfold get_role_from_config.
  destruct (try_except _ _) as [[role|]|e]; simpl; eauto.
Qed.

(** ** The validation chain, stage by stage *)

Section Chain.

Variables (policy config messages : PyVal) (phase : string) (now : Q).
Variable calls : gmap string Q.
Variables (d : list (string * PyVal)) (name role : PyVal).
Hypothesis Hname : Py.assoc_get "name" d = Some name.
Hypothesis Hrole : get_role_from_config policy config = Ok role.

Lemma validate_role_denied :
  is_tool_allowed_for_role policy role name = Ok false ->
  validate_tool_call policy config (PDict d) messages phase now calls
  = (calls, Ok (false, "Tool '" ++ Py.str name ++ "' not allowed for role '"
                       ++ Py.str role ++ "'")).
Proof. intros Hno. unfold validate_tool_call. now rewrite Hname, Hrole, Hno. Qed.

Lemma validate_clarify :
  is_tool_allowed_for_role policy role name = Ok true -> phase = "clarify" ->
  validate_tool_call policy config (PDict d) messages phase now calls
  = (calls, Ok (false, "Tools prohibited during clarification phase")).
Proof.
  intros Hyes ->. unfold validate_tool_call. now rewrite Hname, Hrole, Hyes.
Qed.

Lemma validate_research_gate :
  is_tool_allowed_for_role policy role name = Ok true -> phase = "research" ->
  Py.in_list name [PStr "ConductResearch"; PStr "ResearchComplete"] = false ->
  validate_tool_call policy config (PDict d) messages phase now calls
  = (calls, Ok (false, "Tool '" ++ Py.str name
                       ++ "' not allowed during research orchestration")).
Proof.
  intros Hyes -> Hout. unfold validate_tool_call.
  rewrite Hname, Hrole, Hyes, Hout. reflexivity.
Qed.

(** Past the phase gate the verdict is that of the duplicate and alignment
    stages. *)
Lemma validate_past_gate :
  is_tool_allowed_for_role policy role name = Ok true ->
  phase <> "clarify" ->
  (phase = "research" ->
   Py.in_list name [PStr "ConductResearch"; PStr "ResearchComplete"] = true) ->
  validate_tool_call policy config (PDict d) messages phase now calls
  = match is_duplicate_call policy (PDict d) now calls with
    | (calls', Ok true) => (calls', Ok (false, "Duplicate tool call suppressed"))
    | (calls', Raise _) => (calls', Ok (false, "Duplicate check failed"))
    | (calls', Ok false) =>
        if intent_unaligned (PDict d) messages
        then (calls', Ok (false, "Tool call appears unrelated to user intent"))
        else (calls', Ok (true, "allowed"))
    end.
Proof.
  intros Hyes Hc Hr. unfold validate_tool_call. rewrite Hname, Hrole, Hyes.
  destruct (String.eqb_spec phase "clarify") as [|_]; [contradiction |].
  destruct (String.eqb_spec phase "research") as [He|_]; [rewrite (Hr He) |]; reflexivity.
Qed.

End Chain.

Lemma validate_malformed policy config tool_call messages phase now
    (calls : gmap string Q) :
  has_name_key tool_call = false ->
  validate_tool_call policy config tool_call messages phase now calls
  = (calls, Ok (false, "Malformed tool_call")).
Proof.
  destruct tool_call as [| | | | |d|]; try reflexivity.
  unfold has_name_key, validate_tool_call.
  destruct (Py.assoc_get "name" d); [|reflexivity].
  intros H. apply bool_decide_eq_false in H. destruct H. eauto.
Qed.

(** ** C1: the shape check *)

(** C1, as the code has it.  A tool call that is not a mapping, or that has no
    [name] key, is denied as malformed before anything else is looked at:
    whatever the policy, the configuration, the messages and the phase, and
    with the call table untouched.  A tool call that has the key, whatever its
    value, is never reported as malformed. *)
Theorem C1_shape_check policy config tool_call messages phase now
    (calls : gmap string Q) :
  (has_name_key tool_call = false ->
   validate_tool_call policy config tool_call messages phase now calls
   = (calls, Ok (false, "Malformed tool_call")))
  /\ (has_name_key tool_call = true ->
      (validate_tool_call policy config tool_call messages phase now calls).2
      <> Ok (false, "Malformed tool_call")).
Proof.
  split; [apply validate_malformed |].
  - destruct tool_call as [| | | | |d|]; try discriminate.
    unfold has_name_key, validate_tool_call.
    destruct (Py.assoc_get "name" d) as [name|];
      [intros _ | intros H; apply bool_decide_eq_true in H; now destruct H as [? [=]]].
    destruct (get_role_from_config policy config) as [role|e]; [|discriminate].
    destruct (is_tool_allowed_for_role policy role name) as [[|]|e]; try discriminate.
    destruct (phase =? "clarify"); [discriminate |].
    destruct ((phase =? "research") && _); [discriminate |].
    destruct (is_duplicate_call _ _ _ _) as [calls' [[|]|e]]; try discriminate.
    destruct (intent_unaligned _ _); discriminate.
Qed.

Lemma C1_shape_check_witness :
  validate_tool_call wildcard_policy PNone (PDict [("args", PDict [])]) PNone
    "research" 1000 ∅
  = (∅, Ok (false, "Malformed tool_call")).
Proof.
  apply (proj1 (C1_shape_check wildcard_policy PNone (PDict [("args", PDict [])])
                  PNone "research" 1000 ∅)).
  reflexivity.
Defined.

(** C1 as stated fails: a call whose name is the empty string does not carry a
    non-empty name, yet it passes the shape check and, under a wildcard role
    outside the gated phases, is allowed. *)
Lemma C1_empty_name_is_allowed :
  has_nonempty_name (PDict [("name", PStr EmptyString)]) = false
  /\ (validate_tool_call wildcard_policy PNone (PDict [("name", PStr EmptyString)])
        PNone "plan" 1000 ∅).2
     = Ok (true, "allowed").
Proof. split; vm_compute; reflexivity. Qed.

(** ** C4: the permission check *)

(** C4.  Let the policy's [roles] field be a mapping (or be missing).  A role
    that is absent from it is allowed no tool.  For a role that is present
    with allow-list [l]: an empty [l] allows no tool; an [l] containing ["*"]
    allows every tool name, seen before or not; any other [l] allows exactly
    the names that are literally members of it. *)
Theorem C4_is_tool_allowed_for_role p roles (role tool : string) :
  default (PDict []) (Py.assoc_get "roles" p) = PDict roles ->
  (Py.assoc_get role roles = None ->
   is_tool_allowed_for_role (PDict p) (PStr role) (PStr tool) = Ok false)
  /\ (forall cfg l,
        Py.assoc_get role roles = Some (PDict cfg) ->
        default (PList []) (Py.assoc_get "allowed_tools" cfg) = PList l ->
        (l = [] -> is_tool_allowed_for_role (PDict p) (PStr role) (PStr tool) = Ok false)
        /\ (In (PStr "*") l ->
            is_tool_allowed_for_role (PDict p) (PStr role) (PStr tool) = Ok true)
        /\ (l <> [] -> ~ In (PStr "*") l ->
            exists b,
              is_tool_allowed_for_role (PDict p) (PStr role) (PStr tool) = Ok b
              /\ (b = true <-> In (PStr tool) l))).
Proof.
  intros Hroles. unfold is_tool_allowed_for_role, _load_policy, Py.get.
  rewrite Hroles. cbn [mbind result_bind Py.get_key Py.hashable].
  split.
  - intros ->. reflexivity.
  - intros cfg l -> Hl.
    change (default (PDict []) (Some (PDict cfg))) with (PDict cfg).
    cbn [mbind result_bind]. rewrite Hl.
    repeat split.
    + intros ->. reflexivity.
    + intros Hstar. destruct l as [|x l]; [destruct Hstar |].
      cbn [Py.truthy negb Py.contains mbind result_bind].
      apply in_list_str in Hstar. now rewrite Hstar.
    + intros Hne Hstar. destruct l as [|x l]; [congruence |].
      cbn [Py.truthy negb Py.contains mbind result_bind].
      destruct (Py.in_list (PStr "*") (x :: l)) eqn:E;
        [apply in_list_str in E; contradiction |].
      eexists. split; [reflexivity |]. apply in_list_str.
Qed.

Lemma C4_is_tool_allowed_for_role_witness :
  is_tool_allowed_for_role researcher_policy (PStr "researcher") (PStr "Conduct")
  = Ok false.
Proof.
  destruct (C4_is_tool_allowed_for_role
              [("roles",
                PDict [("researcher",
                        PDict [("allowed_tools",
                                PList [PStr "ConductResearch"; PStr "ResearchComplete"])])]);
               ("default_role", PStr "researcher");
               ("duplicate_window_seconds", PInt 300)]
              [("researcher",
                PDict [("allowed_tools",
                        PList [PStr "ConductResearch"; PStr "ResearchComplete"])])]
              "researcher" "Conduct" eq_refl) as [_ H].
  destruct (H [("allowed_tools", PList [PStr "ConductResearch"; PStr "ResearchComplete"])]
              [PStr "ConductResearch"; PStr "ResearchComplete"] eq_refl eq_refl)
    as (_ & _ & H3).
  destruct H3 as (b & Hb & Hiff).
  - discriminate.
  - intros [[=]|[[=]|[]]].
  - unfold researcher_policy. rewrite Hb. f_equal.
    destruct b; [|reflexivity].
    destruct (proj1 Hiff eq_refl) as [[=]|[[=]|[]]].
Defined.

(** ** C5: the phase gate *)

(** C5.  Let the policy have the documented shape and the resolved role be
    hashable, so that the permission stage returns.  Then (a) in phase
    [clarify] every call is denied and the table is left alone; (b) in phase
    [research] a call the role permits, named outside
    [{ConductResearch, ResearchComplete}], is denied with the reason that names
    the research phase; (c) any two phases other than these give the same
    verdict, and there a call the role permits is decided by the duplicate
    and alignment stages alone. *)
Theorem C5_phase_gate policy config tool_call messages now
    (calls : gmap string Q) role :
  policy_ok policy = true ->
  get_role_from_config policy config = Ok role ->
  Py.hashable role = true ->
  (exists reason,
     validate_tool_call policy config tool_call messages "clarify" now calls
     = (calls, Ok (false, reason)))
  /\ (forall d name,
        tool_call = PDict d -> Py.assoc_get "name" d = Some name ->
        is_tool_allowed_for_role policy role name = Ok true ->
        Py.in_list name [PStr "ConductResearch"; PStr "ResearchComplete"] = false ->
        validate_tool_call policy config tool_call messages "research" now calls
        = (calls, Ok (false, "Tool '" ++ Py.str name
                             ++ "' not allowed during research orchestration")))
  /\ (forall phase phase',
        phase <> "clarify" -> phase <> "research" ->
        phase' <> "clarify" -> phase' <> "research" ->
        validate_tool_call policy config tool_call messages phase now calls
        = validate_tool_call policy config tool_call messages phase' now calls)
  /\ (forall phase d name,
        phase <> "clarify" -> phase <> "research" ->
        tool_call = PDict d -> Py.assoc_get "name" d = Some name ->
        is_tool_allowed_for_role policy role name = Ok true ->
        validate_tool_call policy config tool_call messages phase now calls
        = match is_duplicate_call policy tool_call now calls with
          | (calls', Ok true) => (calls', Ok (false, "Duplicate tool call suppressed"))
          | (calls', Raise _) => (calls', Ok (false, "Duplicate check failed"))
          | (calls', Ok false) =>
              if intent_unaligned tool_call messages
              then (calls', Ok (false, "Tool call appears unrelated to user intent"))
              else (calls', Ok (true, "allowed"))
          end).
Proof.
  intros Hpol Hrole Hhash. repeat split.
  - destruct (has_name_key tool_call) eqn:Hkey.
    + destruct tool_call as [| | | | |d|]; try discriminate.
      unfold has_name_key in Hkey. apply bool_decide_eq_true in Hkey.
      destruct Hkey as [name Hname].
      destruct (is_tool_allowed_total policy role name Hpol Hhash) as [[|] Hb].
      * eexists. eapply validate_clarify; eauto.
      * eexists. eapply validate_role_denied; eauto.
    + eexists. now apply validate_malformed.
  - intros d name -> Hname Hyes Hout.
    eapply validate_research_gate; eauto.
  - intros phase phase' Hc Hr Hc' Hr'. unfold validate_tool_call.
    apply String.eqb_neq in Hc, Hr, Hc', Hr'. now rewrite Hc, Hr, Hc', Hr'.
  - intros phase d name Hc Hr -> Hname Hyes.
    eapply validate_past_gate; eauto; congruence.
Qed.

Lemma C5_phase_gate_witness :
  exists reason,
    validate_tool_call wildcard_policy PNone
      (PDict [("name", PStr "ConductResearch")]) PNone "clarify" 1000 ∅
    = (∅, Ok (false, reason)).
Proof.
  apply (C5_phase_gate wildcard_policy PNone (PDict [("name", PStr "ConductResearch")])
           PNone 1000 ∅ (PStr "researcher")); reflexivity.
Defined.

(** C5 as stated fails: with a list as [configurable.role] the lookup of the
    role raises before the phase is looked at, so in phase [clarify] this
    call is not denied; the validator raises [TypeError]. *)
Lemma C5_list_role_raises_in_clarify :
  validate_tool_call wildcard_policy list_role_config research_call PNone
    "clarify" 1000 ∅
  = (∅, Raise TypeError).
Proof. vm_compute. reflexivity. Qed.

(** ** C8: the role resolver *)

Lemma nested_role_truthy config section v :
  nested_role config section = Found v -> Py.truthy v = true.
Proof.
  unfold nested_role.
  repeat match goal with
         | |- context [match ?x with _ => _ end] => destruct x eqn:?
         end; congruence.
Qed.

Lemma resolve_role_truthy default_role config :
  Py.truthy default_role = true ->
  Py.truthy (resolve_role default_role config) = true.
Proof.
  intros Hd. unfold resolve_role.
  destruct (nested_role config "configurable") eqn:H1;
    [eauto using nested_role_truthy | | assumption].
  destruct (nested_role config "metadata") eqn:H2; eauto using nested_role_truthy.
Qed.

Lemma get_role_resolves p config :
  get_role_from_config (PDict p) config
  = Ok (resolve_role (default (PStr "researcher") (Py.assoc_get "default_role" p)) config).
Proof.
  unfold get_role_from_config, resolve_role, nested_role, _load_policy, Py.or_else, Py.get.
  destruct config as [|b|z|s|l|c|a cls attrs]; try reflexivity.
  - destruct b; reflexivity.
  - simpl. destruct (z =? 0)%Z; reflexivity.
  - simpl. destruct (s =? EmptyString); reflexivity.
  - destruct l; reflexivity.
  - destruct c as [|kv c]; [reflexivity |].
    cbn [Py.truthy]. generalize (kv :: c). clear kv c. intros c.
    assert (Hmeta :
      (role ← (meta ← Ok (default (PDict []) (Py.assoc_get "metadata" c));
               match meta with
               | PDict d => Ok (default PNone (Py.assoc_get "role" d))
               | _ => Raise AttributeError
               end);
       Ok (if Py.truthy role then Some role else None))
      = match Py.assoc_get "metadata" c with
        | Some (PDict m) =>
            match Py.assoc_get "role" m with
            | Some r => Ok (if Py.truthy r then Some r else None)
            | None => Ok None
            end
        | Some _ => Raise AttributeError
        | None => Ok None
        end).
    { destruct (Py.assoc_get "metadata" c) as [[| | | | |m|]|]; try reflexivity.
      cbn -[Py.truthy Py.assoc_get].
      destruct (Py.assoc_get "role" m); reflexivity. }
    assert (Hfin : forall body : result (option PyVal),
      body = match Py.assoc_get "metadata" c with
             | Some (PDict m) =>
                 match Py.assoc_get "role" m with
                 | Some r => Ok (if Py.truthy r then Some r else None)
                 | None => Ok None
                 end
             | Some _ => Raise AttributeError
             | None => Ok None
             end ->
      match try_except body (Ok None) with
      | Ok (Some role) => Ok role
      | _ => Ok (default (PStr "researcher") (Py.assoc_get "default_role" p))
      end
      = Ok match
             match Py.assoc_get "metadata" c with
             | Some (PDict s0) =>
                 match Py.assoc_get "role" s0 with
                 | Some r0 => if Py.truthy r0 then Found r0 else Missing
                 | None => Missing
                 end
             | None => Missing
             | _ => Failed
             end
           with
           | Found r0 => r0
           | _ => default (PStr "researcher") (Py.assoc_get "default_role" p)
           end).
    { intros body ->.
      destruct (Py.assoc_get "metadata" c) as [[| | | | |m|]|]; try reflexivity.
      destruct (Py.assoc_get "role" m) as [r'|]; [|reflexivity].
      destruct (Py.truthy r'); reflexivity. }
    destruct (Py.assoc_get "configurable" c) as [[| | | | |s|]|]; try reflexivity.
    + change (default (PDict []) (Some (PDict s))) with (PDict s).
      cbn [mbind result_bind].
      destruct (Py.assoc_get "role" s) as [r|].
      * change (default PNone (Some r)) with r.
        destruct (Py.truthy r) eqn:Hr.
        -- cbn [mbind result_bind try_except]. now rewrite Hr.
        -- apply Hfin. exact Hmeta.
      * apply Hfin. exact Hmeta.
    + apply Hfin. exact Hmeta.
Qed.

(** C8.  Let the policy be a mapping whose [default_role] is missing or is a
    non-empty value.  For every configuration object, [None] and ill-shaped
    ones included, the resolver returns (it does not raise), and what it
    returns is [configurable.role] when that is set, else [metadata.role]
    when that is set, and the policy's default role when neither is or when a
    lookup on the way fails; the result is never [None] and never empty. *)
Theorem C8_get_role_from_config p config :
  Py.truthy (default (PStr "researcher") (Py.assoc_get "default_role" p)) = true ->
  exists role,
    get_role_from_config (PDict p) config = Ok role
    /\ role = resolve_role (default (PStr "researcher") (Py.assoc_get "default_role" p))
                config
    /\ Py.truthy role = true /\ role <> PNone /\ role <> PStr EmptyString.
Proof.
  intros Hd. eexists. split; [apply get_role_resolves |].
  split; [reflexivity |].
  pose proof (resolve_role_truthy _ config Hd) as Ht.
  repeat split; [assumption | |]; intros E; rewrite E in Ht; discriminate.
Qed.

Lemma C8_get_role_from_config_witness :
  exists role,
    get_role_from_config wildcard_policy PNone = Ok role
    /\ role = PStr "researcher"
    /\ Py.truthy role = true /\ role <> PNone /\ role <> PStr EmptyString.
Proof.
  apply (C8_get_role_from_config
           [("roles", PDict [("researcher", PDict [("allowed_tools", PList [PStr "*"])])]);
            ("default_role", PStr "researcher");
            ("duplicate_window_seconds", PInt 300)] PNone).
  reflexivity.
Defined.

(** C8 as stated fails when the policy does not supply a usable default:
    with an empty [default_role] the resolver returns the empty string, with
    a [null] one it returns [None], and with a policy that is not a mapping
    it raises [AttributeError]; each for the configuration [None]. *)
Lemma C8_default_role_is_returned_as_is :
  get_role_from_config (PDict [("default_role", PStr EmptyString)]) PNone
  = Ok (PStr EmptyString)
  /\ get_role_from_config (PDict [("default_role", PNone)]) PNone = Ok PNone
  /\ get_role_from_config (PList []) PNone = Raise AttributeError.
Proof. repeat split; vm_compute; reflexivity. Qed.

(** ** C10: filtering tool descriptors *)

Lemma filter_loop_spec policy role tools : forall filtered,
  (forall name, exists b, is_tool_allowed_for_role policy role name = Ok b) ->
  filter_loop policy role tools filtered
  = Ok (filtered ++ List.filter
          (fun t => Py.truthy (is_tool_name t)
                    && permitted policy role (is_tool_name t)) tools)%list.
Proof.
  induction tools as [|t tools IH]; intros filtered Htot; simpl.
  - now rewrite app_nil_r.
  - unfold permitted.
    destruct (Py.truthy (is_tool_name t)); simpl; [|now apply IH].
    destruct (Htot (is_tool_name t)) as [b ->]. cbn [mbind result_bind].
    rewrite IH by assumption. destruct b; [|reflexivity].
    now rewrite <- app_assoc.
Qed.

(** C10.  Let the policy have the documented shape and the role resolved from
    the configuration be hashable.  Then [filter_tools_by_role] returns, in
    their original order, exactly the descriptors whose extracted name is
    non-empty and allowed for that role.  A dictionary without a [name] key
    and an object without a [name] attribute yield the empty name, and a
    descriptor with an empty name is left out of the result. *)
Theorem C10_filter_tools_by_role policy config role (tools : list PyVal) :
  policy_ok policy = true ->
  get_role_from_config policy config = Ok role ->
  Py.hashable role = true ->
  filter_tools_by_role policy config tools
  = Ok (List.filter (fun t => Py.truthy (is_tool_name t)
                              && permitted policy role (is_tool_name t)) tools)
  /\ (forall d, Py.assoc_get "name" d = None -> is_tool_name (PDict d) = PStr EmptyString)
  /\ (forall a cls attrs,
        Py.assoc_get "name" attrs = None ->
        is_tool_name (PObj a cls attrs) = PStr EmptyString)
  /\ (forall t result,
        filter_tools_by_role policy config tools = Ok result ->
        Py.truthy (is_tool_name t) = false -> ~ In t result).
Proof.
  intros Hpol Hrole Hhash.
  assert (Heq : filter_tools_by_role policy config tools
                = Ok (List.filter (fun t => Py.truthy (is_tool_name t)
                                   && permitted policy role (is_tool_name t)) tools)).
  { unfold filter_tools_by_role. rewrite Hrole. cbn [mbind result_bind].
    rewrite filter_loop_spec; [reflexivity |].
    intros name. now apply is_tool_allowed_total. }
  split; [exact Heq |]. repeat split.
  - intros d Hd. unfold is_tool_name. destruct d; [reflexivity |].
    cbn [Py.truthy negb]. now rewrite Hd.
  - intros a cls attrs Hn. unfold is_tool_name, Py.getattr. cbn [Py.truthy negb].
    now rewrite Hn.
  - intros t result. rewrite Heq. intros [= <-] Hempty Hin.
    apply filter_In in Hin. destruct Hin as [_ Hin]. now rewrite Hempty in Hin.
Qed.

Lemma C10_filter_tools_by_role_witness :
  filter_tools_by_role researcher_policy PNone
    [PDict [("name", PStr "ConductResearch")];
     PObj 1 "Tool" [("description", PStr "no name")];
     PDict [("name", PStr "think_tool")];
     PObj 2 "Tool" [("name", PStr "ResearchComplete")]]
  = Ok [PDict [("name", PStr "ConductResearch")];
        PObj 2 "Tool" [("name", PStr "ResearchComplete")]].
Proof.
  destruct (C10_filter_tools_by_role researcher_policy PNone (PStr "researcher")
              [PDict [("name", PStr "ConductResearch")];
               PObj 1 "Tool" [("description", PStr "no name")];
               PDict [("name", PStr "think_tool")];
               PObj 2 "Tool" [("name", PStr "ResearchComplete")]]
              eq_refl eq_refl eq_refl) as [H _].
  rewrite H. reflexivity.
Defined.

(** C10 as stated fails: with a list as [configurable.role] and one named
    descriptor, the filter raises [TypeError] instead of returning a list. *)
Lemma C10_list_role_raises :
  filter_tools_by_role wildcard_policy list_role_config
    [PDict [("name", PStr "ConductResearch")]]
  = Raise TypeError.
Proof. vm_compute. reflexivity. Qed.

(** ** The call table *)

Lemma Qltb_lt x y : Qltb x y = true <-> (x < y)%Q.
Proof.
  unfold Qltb. rewrite negb_true_iff, <- not_true_iff_false, Qle_bool_iff.
  split; [apply Qnot_le_lt | apply Qlt_not_le].
Qed.

Lemma float_truthy_nonzero x : (~ x == 0)%Q -> float_truthy x = true.
Proof.
  intros Hx. unfold float_truthy. apply negb_true_iff, not_true_iff_false.
  now rewrite Qeq_bool_iff.
Qed.

Lemma prune_lookup_Some cutoff (calls : gmap string Q) k v :
  prune cutoff calls !! k = Some v <-> calls !! k = Some v /\ Qltb v cutoff = false.
Proof.
  unfold prune. rewrite lookup_foldr_delete_Some. split.
  - intros [Hnot Hk]. split; [assumption |].
    destruct (Qltb v cutoff) eqn:Hlt; [|reflexivity].
    exfalso. apply Hnot. apply list_elem_of_fmap. exists (k, v). split; [reflexivity |].
    apply list_elem_of_In, filter_In. split; [|assumption].
    now apply list_elem_of_In, elem_of_map_to_list.
  - intros [Hk Hge]. split; [|assumption].
    intros Hin. apply list_elem_of_fmap in Hin. destruct Hin as ([k' v'] & -> & Hin).
    apply list_elem_of_In, filter_In in Hin. destruct Hin as [Hin Hlt].
    apply list_elem_of_In, elem_of_map_to_list in Hin. simpl in *. congruence.
Qed.

Lemma fingerprint_dict d : exists fp, _call_fingerprint (PDict d) = Ok fp.
Proof. unfold _call_fingerprint. simpl. eauto. Qed.

Lemma policy_window_get policy w :
  policy_window policy = Some w ->
  exists window,
    Py.get policy "duplicate_window_seconds" (PInt 300) = Ok window
    /\ as_number window = Some w.
Proof. destruct policy; try discriminate. simpl. eauto. Qed.

(** The duplicate check once the fingerprint and a numeric window are known. *)
Lemma is_duplicate_call_eq policy tool_call now (calls : gmap string Q) fp w :
  _call_fingerprint tool_call = Ok fp ->
  policy_window policy = Some w ->
  is_duplicate_call policy tool_call now calls
  = if match calls !! fp with
       | Some last => float_truthy last && Qltb (now - last) w
       | None => false
       end
    then (calls, Ok true)
    else (if (1000 <? size (<[fp := now]> calls))%nat
          then prune (now - w) (<[fp := now]> calls)
          else <[fp := now]> calls, Ok false).
Proof.
  intros Hfp Hw. destruct (policy_window_get _ _ Hw) as (window & Hget & Hnum).
  unfold is_duplicate_call, _load_policy. rewrite Hfp, Hget.
  cbn [mbind result_bind]. rewrite Hnum.
  destruct (calls !! fp) as [last|]; [destruct (float_truthy last) |];
    cbn [andb]; try destruct (Qltb (now - last) w);
    destruct (1000 <? size (<[fp := now]> calls))%nat; reflexivity.
Qed.

(** A call reported as not-duplicate has been recorded, unless a negative
    window lets the pruning loop drop it again. *)
Lemma is_duplicate_call_records policy tool_call now (calls calls' : gmap string Q) fp :
  (forall w, policy_window policy = Some w -> (0 <= w)%Q) ->
  _call_fingerprint tool_call = Ok fp ->
  is_duplicate_call policy tool_call now calls = (calls', Ok false) ->
  calls' !! fp = Some now.
Proof.
  intros Hw Hfp. unfold is_duplicate_call, _load_policy. rewrite Hfp.
  destruct (Py.get policy "duplicate_window_seconds" (PInt 300)) as [window|e] eqn:Hget;
    cbn [mbind result_bind]; [|discriminate].
  assert (Hwin : policy_window policy = as_number window).
  { destruct policy; try discriminate. simpl in Hget. now injection Hget as <-. }
  destruct (match calls !! fp with
            | Some last =>
                if float_truthy last
                then match as_number window with
                     | Some w => Ok (Qltb (now - last) w)
                     | None => Raise TypeError
                     end
                else Ok false
            | None => Ok false
            end) as [[|]|e]; try discriminate.
  destruct (1000 <? size (<[fp := now]> calls))%nat.
  - destruct (as_number window) as [w|]; [|discriminate].
    intros [= <-]. apply prune_lookup_Some. split; [apply lookup_insert_eq |].
    apply not_true_iff_false. rewrite Qltb_lt.
    specialize (Hw w Hwin). apply Qle_not_lt. lra.
  - intros [= <-]. apply lookup_insert_eq.
Qed.

(** ** C2: duplicate suppression *)

Lemma clock_reading_nonzero x : clock_reading x -> ~ (x == 0)%Q.
Proof.
  intros (n & Hn & Hx) H0. rewrite Hx in H0. unfold Qeq in H0. simpl in H0. lia.
Qed.





(** ** C3: what a denial leaves in the call table *)



(** ** C6: the fingerprint *)

(** Induction on values that reaches inside lists and dictionaries. *)
Lemma PyVal_nested_ind (P : PyVal -> Prop) :
  P PNone -> (forall b, P (PBool b)) -> (forall z, P (PInt z)) ->
  (forall s, P (PStr s)) ->
  (forall l, Forall P l -> P (PList l)) ->
  (forall d, Forall (fun kv => P kv.2) d -> P (PDict d)) ->
  (forall a cls attrs, Forall (fun kv => P kv.2) attrs -> P (PObj a cls attrs)) ->
  forall v, P v.
Proof.
  intros HN HB HI HS HL HD HO.
  fix IH 1. intros [|b|z|s|l|d|a cls attrs].
  - exact HN.
  - apply HB.
  - apply HI.
  - apply HS.
  - apply HL. induction l as [|x l IHl]; constructor; [apply IH | exact IHl].
  - apply HD. induction d as [|[k x] d IHd]; constructor; [apply IH | exact IHd].
  - apply HO. induction attrs as [|[k x] d IHd]; constructor; [apply IH | exact IHd].
Qed.

(** *** The order on keys *)

Lemma ascii_compare_refl c : Ascii.compare c c = Eq.
Proof. unfold Ascii.compare. apply N.compare_refl. Qed.

Lemma ascii_compare_Lt_trans a b c :
  Ascii.compare a b = Lt -> Ascii.compare b c = Lt -> Ascii.compare a c = Lt.
Proof.
  unfold Ascii.compare. rewrite !N.compare_lt_iff. apply N.lt_trans.
Qed.

Lemma string_leb_trans a : forall b c,
  String.leb a b = true -> String.leb b c = true -> String.leb a c = true.
Proof.
  unfold String.leb.
  induction a as [|x a IH]; intros [|y b] [|z c]; simpl; try (intros; congruence).
  destruct (Ascii.compare x y) eqn:Hxy; [| |discriminate].
  - apply Ascii.compare_eq_iff in Hxy. subst y.
    destruct (Ascii.compare x z) eqn:Hxz; try (intros; congruence). apply IH.
  - destruct (Ascii.compare y z) eqn:Hyz; [| |discriminate]; intros _ _.
    + apply Ascii.compare_eq_iff in Hyz. subst z. now rewrite Hxy.
    + now rewrite (ascii_compare_Lt_trans _ _ _ Hxy Hyz).
Qed.

#[local] Instance key_le_trans {V} : Transitive (@Json.key_le V).
Proof.
  intros x y z. unfold Json.key_le. rewrite !Is_true_true. apply string_leb_trans.
Qed.

#[local] Instance key_le_total {V} : Total (@Json.key_le V).
Proof.
  intros x y. unfold Json.key_le. rewrite !Is_true_true. apply String.leb_total.
Qed.

(** Sorting by key forgets the insertion order of items with distinct keys. *)
Lemma sort_items_perm {V} (l l' : list (string * V)) :
  Permutation l l' -> NoDup l.*1 -> Json.sort_items l = Json.sort_items l'.
Proof.
  intros Hperm Hnd. unfold Json.sort_items.
  apply (StronglySorted_unique_strong Json.key_le).
  - intros x1 x2 H1 H2 H12 H21.
    rewrite merge_sort_Permutation in H1, H2. rewrite <- Hperm in H2.
    unfold Json.key_le in H12, H21. rewrite Is_true_true in H12, H21.
    pose proof (String.leb_antisym _ _ H12 H21) as Hk.
    destruct x1 as [k1 v1], x2 as [k2 v2]. simpl in Hk. subst k2. f_equal.
    apply list_elem_of_lookup in H1, H2.
    destruct H1 as [i Hi], H2 as [j Hj].
    assert (i = j) as ->.
    { eapply NoDup_lookup; [exact Hnd | |]; rewrite list_lookup_fmap.
      - now rewrite Hi.
      - now rewrite Hj. }
    congruence.
  - apply StronglySorted_merge_sort; apply _.
  - apply StronglySorted_merge_sort; apply _.
  - now rewrite !merge_sort_Permutation.
Qed.

Lemma mapM_ext_Forall2 {A B} (f : A -> result B) (l1 l2 : list A) :
  Forall2 (fun x y => f x = f y) l1 l2 -> mapM f l1 = mapM f l2.
Proof.
  induction 1 as [|x y l1 l2 Hxy _ IH]; simpl; [reflexivity |].
  now rewrite Hxy, IH.
Qed.

Lemma wf_val_dict d :
  wf_val (PDict d) = true ->
  NoDup d.*1 /\ Forall (fun kv => wf_val kv.2 = true) d.
Proof.
  simpl. rewrite andb_true_iff, bool_decide_eq_true, forallb_forall.
  intros [Hnd Hall]. split; [assumption |].
  apply List.Forall_forall. intros [k x] Hin. exact (Hall _ Hin).
Qed.

(** With sorted keys the encoder does not see the insertion order. *)
Lemma dumps_same a :
  wf_val a = true -> forall b, same_value a b ->
  Json.dumps true a = Json.dumps true b.
Proof.
  induction a as [|b|z|s|l IH|d IH|ad cls attrs IH] using PyVal_nested_ind;
    intros Hwf b' Hsame; inversion Hsame; subst; try reflexivity.
  - (* lists, element by element *)
    simpl. f_equal. apply mapM_ext_Forall2.
    simpl in Hwf. rewrite forallb_forall in Hwf.
    match goal with H : Forall2 same_value _ _ |- _ => rename H into Hl end.
    clear Hsame. induction Hl as [|x y l l2 Hxy Hl IHl]; constructor.
    + apply (Forall_inv IH); [apply Hwf; now left | exact Hxy].
    + apply IHl; [exact (Forall_inv_tail IH) | intros v Hv; apply Hwf; now right].
  - (* dictionaries: the items are a permutation of items the encoder maps
       to the same texts *)
    apply wf_val_dict in Hwf. destruct Hwf as [Hnd Hwf].
    match goal with
    | Hp : Permutation d ?d1', Hf : Forall2 _ ?d1' ?d2 |- _ =>
        rename Hp into Hperm; rename Hf into Hitems; rename d1' into d'
    end.
    cbn [Json.dumps].
    set (enc := fun '(k, x) => (k, Json.dumps true x)).
    assert (Hkeys : (List.map enc d).*1 = d.*1).
    { clear. induction d as [|[k x] d IHd]; simpl; [reflexivity | now f_equal]. }
    assert (Heq : List.map enc d' = List.map enc d2).
    { assert (IH' : Forall (fun kv => wf_val kv.2 = true ->
                       forall b, same_value kv.2 b ->
                                 Json.dumps true kv.2 = Json.dumps true b) d')
        by now rewrite <- Hperm.
      assert (Hwf' : Forall (fun kv => wf_val kv.2 = true) d') by now rewrite <- Hperm.
      clear Hperm Hsame Hkeys Hnd.
      induction Hitems as [|[k x] [k' y] l l2 [Hk Hxy] Hl IHl]; [reflexivity |].
      simpl in Hk, Hxy. subst k'. simpl. f_equal.
      - f_equal. apply (Forall_inv IH'); [exact (Forall_inv Hwf') | exact Hxy].
      - apply IHl; [exact (Forall_inv_tail IH') | exact (Forall_inv_tail Hwf')]. }
    rewrite (sort_items_perm (List.map enc d) (List.map enc d')).
    + now rewrite Heq.
    + now apply Permutation_map.
    + now rewrite Hkeys.
Qed.

(** C6, as the code has it.  Two tool calls with the same name, whose
    arguments hold the same key/value pairs in any insertion order at every
    depth, have the same fingerprint, provided [json.dumps] can encode the
    arguments.  (When it cannot, the fingerprint falls back on [str(args)],
    which follows the insertion order.) *)
Theorem C6_fingerprint_order_independent d1 d2 text :
  Py.assoc_get "name" d1 = Py.assoc_get "name" d2 ->
  wf_val (call_args d1) = true ->
  same_value (call_args d1) (call_args d2) ->
  Json.dumps true (call_args d1) = Ok text ->
  _call_fingerprint (PDict d1) = _call_fingerprint (PDict d2).
Proof.
  intros Hname Hwf Hsame Htext. unfold _call_fingerprint, Py.get.
  cbn [mbind result_bind]. fold (call_args d1) (call_args d2).
  rewrite <- (dumps_same _ Hwf _ Hsame), Htext, Hname. reflexivity.
Qed.

Lemma C6_fingerprint_order_independent_witness :
  _call_fingerprint (PDict call_xy) = _call_fingerprint (PDict call_yx).
Proof.
  apply (C6_fingerprint_order_independent call_xy call_yx
           (match Json.dumps true (call_args call_xy) with
            | Ok text => text
            | Raise _ => EmptyString
            end)).
  - reflexivity.
  - reflexivity.
  - apply (same_dict _ [("y", PInt 2); ("x", PInt 1)]).
    + apply perm_swap.
    + repeat constructor.
  - reflexivity.
Defined.

(** C6 as stated fails: the two calls below have the same name and the same
    two arguments in the two insertion orders, one argument being an object
    [json.dumps] cannot encode, and their fingerprints differ. *)
Lemma C6_fallback_follows_insertion_order :
  Py.assoc_get "name" call_obj_ab = Py.assoc_get "name" call_obj_ba
  /\ wf_val (call_args call_obj_ab) = true
  /\ same_value (call_args call_obj_ab) (call_args call_obj_ba)
  /\ _call_fingerprint (PDict call_obj_ab) = Ok "A:{'a': <Handle object at 0x1000>, 'b': 1}"
  /\ _call_fingerprint (PDict call_obj_ba) = Ok "A:{'b': 1, 'a': <Handle object at 0x1000>}"
  /\ _call_fingerprint (PDict call_obj_ab) <> _call_fingerprint (PDict call_obj_ba).
Proof.
  repeat split; try reflexivity.
  - apply (same_dict _ [("b", PInt 1); ("a", file_handle)]).
    + apply perm_swap.
    + repeat constructor.
  - discriminate.
Qed.

(** ** C7: the intent-alignment heuristic *)

Lemma elem_of_tokens text t :
  t ∈ tokens text
  <-> exists w, In w (Py.split text) /\ (3 < String.length w)%nat /\ t = Py.lower w.
Proof.
  unfold tokens. rewrite elem_of_list_to_set, list_elem_of_In, in_map_iff. split.
  - intros (w & <- & Hin). apply filter_In in Hin. destruct Hin as [Hin Hlen].
    exists w. repeat split; [assumption |]. now apply Nat.ltb_lt.
  - intros (w & Hin & Hlen & ->). exists w. split; [reflexivity |].
    apply filter_In. split; [assumption | now apply Nat.ltb_lt].
Qed.

Lemma intent_unaligned_iff d ms args_text :
  ms <> [] ->
  Json.dumps false (call_args d) = Ok args_text ->
  intent_unaligned (PDict d) (PList ms) = true
  <-> tokens (user_text ms) ≠ ∅ /\ tokens args_text ≠ ∅
      /\ tokens (user_text ms) ∩ tokens args_text = ∅.
Proof.
  intros Hne Hdumps. unfold intent_unaligned, Py.get.
  destruct ms as [|m ms]; [congruence |]. cbn [Py.truthy mbind result_bind].
  fold (call_args d). rewrite Hdumps. cbn [mbind result_bind].
  rewrite !andb_true_iff, !bool_decide_eq_true, disjoint_intersection_L. tauto.
Qed.

(** C7.  With a non-empty list of messages and arguments [json.dumps] can
    encode, the alignment block denies the call exactly when the token set of
    the joined message contents and the token set of the encoded arguments
    are both non-empty and share no token; a token set holds the lower-cased
    whitespace-separated words longer than three characters.  The block lets
    the call through when no messages are supplied (or they are not a list)
    and when encoding the arguments raises.  In [validate_tool_call], once the
    earlier stages have passed, the verdict is the denial when the block flags
    the call and "allowed" otherwise.  The weather question with the weather
    query is let through; the summarize request with the delete target is
    flagged, and denied by [validate_tool_call]. *)
Theorem C7_intent_alignment :
  (forall d ms args_text,
     ms <> [] ->
     Json.dumps false (call_args d) = Ok args_text ->
     intent_unaligned (PDict d) (PList ms) = true
     <-> tokens (user_text ms) ≠ ∅ /\ tokens args_text ≠ ∅
         /\ tokens (user_text ms) ∩ tokens args_text = ∅)
  /\ (forall text t,
        t ∈ tokens text
        <-> exists w, In w (Py.split text) /\ (3 < String.length w)%nat
                      /\ t = Py.lower w)
  /\ (forall tool_call messages,
        Py.truthy messages = false \/ Py.isinstance_list messages = false ->
        intent_unaligned tool_call messages = false)
  /\ (forall d ms e,
        Json.dumps false (call_args d) = Raise e ->
        intent_unaligned (PDict d) (PList ms) = false)
  /\ (forall policy config d name role messages phase now
             (calls calls' : gmap string Q),
        Py.assoc_get "name" d = Some name ->
        get_role_from_config policy config = Ok role ->
        is_tool_allowed_for_role policy role name = Ok true ->
        phase <> "clarify" ->
        (phase = "research" ->
         Py.in_list name [PStr "ConductResearch"; PStr "ResearchComplete"] = true) ->
        is_duplicate_call policy (PDict d) now calls = (calls', Ok false) ->
        validate_tool_call policy config (PDict d) messages phase now calls
        = (calls',
           Ok (if intent_unaligned (PDict d) messages
               then (false, "Tool call appears unrelated to user intent")
               else (true, "allowed"))))
  /\ intent_unaligned weather_call weather_messages = false
  /\ intent_unaligned delete_call summarize_messages = true
  /\ (validate_tool_call researcher_policy PNone weather_call weather_messages
        "research" 1000 ∅).2 = Ok (true, "allowed")
  /\ (validate_tool_call researcher_policy PNone delete_call summarize_messages
        "research" 1000 ∅).2
     = Ok (false, "Tool call appears unrelated to user intent").
Proof.
  split; [exact intent_unaligned_iff |].
  split; [exact elem_of_tokens |].
  split.
  { intros tool_call messages [H|H]; destruct messages as [| | | |l| |];
      try reflexivity; try discriminate.
    destruct l; [reflexivity | discriminate]. }
  split.
  { intros d ms e Hraise. unfold intent_unaligned, Py.get.
    destruct ms; [reflexivity |]. cbn [Py.truthy mbind result_bind].
    fold (call_args d). now rewrite Hraise. }
  split.
  { intros policy config d name role messages phase now calls calls'
           Hname Hrole Hyes Hc Hr Hdup.
    rewrite (validate_past_gate policy config messages phase now calls d name role
               Hname Hrole Hyes Hc Hr), Hdup.
    now destruct (intent_unaligned (PDict d) messages). }
  repeat split; vm_compute; reflexivity.
Qed.

Lemma C7_intent_alignment_witness :
  tokens (user_text [human_message 2 "Summarize this document"]) ≠ ∅.
Proof.
  refine (proj1 (proj1 (proj1 C7_intent_alignment
                          [("name", PStr "ConductResearch");
                           ("args", PDict [("target", PStr "delete_all_records")])]
                          [human_message 2 "Summarize this document"]
                          (match Json.dumps false
                                   (PDict [("target", PStr "delete_all_records")]) with
                           | Ok text => text
                           | Raise _ => EmptyString
                           end) _ eq_refl) _)).
  - discriminate.
  - vm_compute. reflexivity.
Defined.

(** ** C9: the check-then-set under two threads *)

(** A thread left alone computes [is_duplicate_call]. *)
Lemma thread_alone policy tool_call now (calls : gmap string Q) :
  (let '(calls1, t1) := thread_step (start policy tool_call now) calls in
   thread_step t1 calls1)
  = (let '(calls', r) := is_duplicate_call policy tool_call now calls in
     (calls', Returned r)).
Proof.
  unfold start, is_duplicate_call.
  destruct (_ ← _call_fingerprint tool_call; _) as [[fp window]|e]; [|reflexivity].
  cbn [thread_step].
  destruct (match calls !! fp with Some _ => _ | None => _ end) as [[|]|e];
    try reflexivity.
  destruct (1000 <? size (<[fp := now]> calls))%nat; [|reflexivity].
  destruct (as_number window); reflexivity.
Qed.

(** Whenever both threads read the table before either writes it, a call that
    is not yet in the table is reported not-duplicate to both. *)
Lemma race_both_pass policy tool_call fp w now1 now2 (calls : gmap string Q) :
  _call_fingerprint tool_call = Ok fp ->
  policy_window policy = Some w ->
  calls !! fp = None ->
  let s := run [A; B; A; B]
             (System calls (start policy tool_call now1) (start policy tool_call now2)) in
  thread_a s = Returned (Ok false) /\ thread_b s = Returned (Ok false).
Proof.
  intros Hfp Hw Hnew. destruct (policy_window_get _ _ Hw) as (window & Hget & Hnum).
  unfold start, _load_policy. rewrite Hfp, Hget. cbn [mbind result_bind].
  cbn [run fold_left sched thread_step thread_a thread_b table].
  rewrite Hnew. cbn [thread_step]. rewrite Hnum.
  destruct (1000 <? size (<[fp := now1]> calls))%nat;
    cbn [thread_a thread_b table thread_step]; rewrite Hnum;
    match goal with
    | |- context [(1000 <? size ?m)%nat] => destruct (1000 <? size m)%nat
    end; split; reflexivity.
Qed.

(** C9 fails on the code.  Two requests for the same call, one second apart
    under a 300-second window, start from an empty table.  Run one after the
    other, the second is reported a duplicate.  Run so that both read the
    table before either writes it, both are reported not-duplicate. *)
Theorem C9_check_then_set_race :
  let s0 := System ∅ (start wildcard_policy research_call 1000)
                     (start wildcard_policy research_call 1001) in
  (thread_a (run [A; A; B; B] s0) = Returned (Ok false)
   /\ thread_b (run [A; A; B; B] s0) = Returned (Ok true))
  /\ (thread_a (run [A; B; A; B] s0) = Returned (Ok false)
      /\ thread_b (run [A; B; A; B] s0) = Returned (Ok false)).
Proof. repeat split; vm_compute; reflexivity. Qed.

(** * Further properties of the module *)

(** ** [validate_structured_output_conflict] *)

Lemma eq_str_r s v : Py.eq v (PStr s) = true <-> v = PStr s.
Proof.
  destruct v; simpl; try (split; [discriminate | intros [=]]).
  rewrite String.eqb_eq. split; [intros -> | intros [= ->]]; reflexivity.
Qed.

Lemma counts_as_strict_iff s : counts_as_strict s = true <-> strict_json s.
Proof.
  unfold counts_as_strict, strict_json_test, strict_json. split.
  - destruct s as [| | | | |d|]; try discriminate. cbn [Py.get mbind result_bind].
    destruct (Py.eq (default PNone (Py.assoc_get "type" d)) (PStr "json_schema")) eqn:Hty;
      [|discriminate].
    apply eq_str_r in Hty.
    destruct (Py.assoc_get "type" d) as [ty|] eqn:Et; [|discriminate].
    simpl in Hty. subst ty. cbn [mbind result_bind].
    destruct (Py.assoc_get "strict" d) as [v|] eqn:Es; [|discriminate].
    change (default PNone (Some v)) with v.
    destruct (Py.truthy v) eqn:Hv; [|discriminate].
    intros _. exists d, v. auto.
  - intros (d & v & -> & Hty & Hst & Hv). cbn [Py.get mbind result_bind].
    rewrite Hty, Hst. change (default PNone (Some v)) with v.
    cbn -[Py.truthy]. now rewrite Hv.
Qed.

Lemma conflict_loop_count schemas : forall n,
  conflict_loop schemas n = (n + length (List.filter counts_as_strict schemas))%nat.
Proof.
  induction schemas as [|s schemas IH]; intros n; simpl; [lia |].
  unfold counts_as_strict at 1.
  destruct (strict_json_test s) as [[|]|e]; rewrite IH; simpl; lia.
Qed.

Lemma conflict_verdict_iff schemas :
  validate_structured_output_conflict schemas = conflict_verdict
  <-> (2 <= length (List.filter counts_as_strict schemas))%nat.
Proof.
  unfold validate_structured_output_conflict, conflict_verdict.
  rewrite conflict_loop_count. simpl.
  destruct (Nat.ltb_spec 1 (length (List.filter counts_as_strict schemas))).
  - split; [lia | reflexivity].
  - split; [discriminate | lia].
Qed.

Lemma two_counted_split schemas :
  (2 <= length (List.filter counts_as_strict schemas))%nat
  <-> exists l1 x l2 y l3,
        schemas = (l1 ++ x :: l2 ++ y :: l3)%list /\ strict_json x /\ strict_json y.
Proof.
  split.
  - induction schemas as [|s schemas IH]; simpl; [lia |].
    destruct (counts_as_strict s) eqn:Hs.
    + simpl. intros Hlen.
      assert (Hex : exists l2 y l3,
                schemas = (l2 ++ y :: l3)%list /\ counts_as_strict y = true).
      { clear -Hlen. induction schemas as [|t schemas IH]; simpl in *; [lia |].
        destruct (counts_as_strict t) eqn:Ht.
        - exists [], t, schemas. auto.
        - destruct (IH Hlen) as (l2 & y & l3 & -> & Hy). exists (t :: l2), y, l3. auto. }
      destruct Hex as (l2 & y & l3 & -> & Hy).
      exists [], s, l2, y, l3. repeat split; now apply counts_as_strict_iff.
    + intros Hlen. destruct (IH Hlen) as (l1 & x & l2 & y & l3 & -> & Hx & Hy).
      exists (s :: l1), x, l2, y, l3. auto.
  - intros (l1 & x & l2 & y & l3 & -> & Hx & Hy).
    apply counts_as_strict_iff in Hx, Hy.
    rewrite List.filter_app. simpl. rewrite Hx, List.filter_app. simpl. rewrite Hy.
    rewrite length_app. simpl. rewrite length_app. simpl. lia.
Qed.

(** X1.  The structured-output check reports a conflict exactly when two
    descriptors at different positions of the batch are mappings of type
    [json_schema] with a true [strict] entry; in every other case, and so also
    for a batch that holds values that are not mappings, it answers "ok". *)
Theorem X1_conflict_iff_two_strict schemas :
  (validate_structured_output_conflict schemas = conflict_verdict
   <-> exists l1 x l2 y l3,
         schemas = (l1 ++ x :: l2 ++ y :: l3)%list /\ strict_json x /\ strict_json y)
  /\ (validate_structured_output_conflict schemas = (true, "ok")
      <-> ~ exists l1 x l2 y l3,
              schemas = (l1 ++ x :: l2 ++ y :: l3)%list /\ strict_json x /\ strict_json y).
Proof.
  rewrite <- two_counted_split, <- conflict_verdict_iff. split; [reflexivity |].
  unfold validate_structured_output_conflict, conflict_verdict.
  destruct (1 <? conflict_loop schemas 0)%nat; split;
    solve [discriminate | congruence | intros H; now destruct H].
Qed.

(** X2.  The verdict of the structured-output check does not depend on the
    order of the descriptors. *)
Theorem X2_conflict_order_free schemas schemas' :
  Permutation schemas schemas' ->
  validate_structured_output_conflict schemas
  = validate_structured_output_conflict schemas'.
Proof.
  intros Hperm. unfold validate_structured_output_conflict.
  rewrite !conflict_loop_count. simpl.
  enough (Hlen : length (List.filter counts_as_strict schemas)
                 = length (List.filter counts_as_strict schemas')) by now rewrite Hlen.
  induction Hperm as [|x l l' _ IH|x y l|l l' l'' _ IH1 _ IH2]; simpl.
  - reflexivity.
  - destruct (counts_as_strict x); simpl; now rewrite IH.
  - destruct (counts_as_strict x), (counts_as_strict y); reflexivity.
  - congruence.
Qed.

Lemma X2_conflict_order_free_witness :
  validate_structured_output_conflict
    [PDict [("type", PStr "json_schema"); ("strict", PBool true)]; PStr "text";
     PDict [("type", PStr "json_schema"); ("strict", PBool true)]]
  = validate_structured_output_conflict
      [PStr "text"; PDict [("type", PStr "json_schema"); ("strict", PBool true)];
       PDict [("type", PStr "json_schema"); ("strict", PBool true)]].
Proof.
  apply X2_conflict_order_free. apply perm_swap.
Defined.

(** X3.  A descriptor that is not a strict [json_schema] declaration (a value
    that is not a mapping, a mapping of another type, a mapping whose [strict]
    is missing or false) can be put into a batch or taken out of it anywhere
    without changing the verdict. *)
Theorem X3_conflict_ignores_other_descriptors l1 x l2 :
  ~ strict_json x ->
  validate_structured_output_conflict (l1 ++ x :: l2)
  = validate_structured_output_conflict (l1 ++ l2).
Proof.
  intros Hx. unfold validate_structured_output_conflict.
  rewrite !conflict_loop_count, !List.filter_app. simpl.
  destruct (counts_as_strict x) eqn:E; [|reflexivity].
  apply counts_as_strict_iff in E. contradiction.
Qed.

Lemma X3_conflict_ignores_other_descriptors_witness :
  validate_structured_output_conflict
    ([PDict [("type", PStr "json_schema"); ("strict", PBool true)]]
     ++ PNone :: [PDict [("type", PStr "json_schema"); ("strict", PBool true)]])
  = validate_structured_output_conflict
      ([PDict [("type", PStr "json_schema"); ("strict", PBool true)]]
       ++ [PDict [("type", PStr "json_schema"); ("strict", PBool true)]]).
Proof.
  apply X3_conflict_ignores_other_descriptors.
  intros (d & v & [=] & _).
Defined.

(** X4.  Adding descriptors never clears a conflict: a batch that contains,
    in any order, all the descriptors of a conflicting batch conflicts too. *)
Theorem X4_conflict_monotone (schemas schemas' : list PyVal) :
  schemas ⊆+ schemas' ->
  validate_structured_output_conflict schemas = conflict_verdict ->
  validate_structured_output_conflict schemas' = conflict_verdict.
Proof.
  rewrite !conflict_verdict_iff. intros Hsub.
  enough (length (List.filter counts_as_strict schemas)
          <= length (List.filter counts_as_strict schemas'))%nat by lia.
  induction Hsub as [|x l l' _ IH|x y l|x l l' _ IH|l l' l'' _ IH1 _ IH2]; simpl.
  - lia.
  - destruct (counts_as_strict x); simpl; lia.
  - destruct (counts_as_strict x), (counts_as_strict y); simpl; lia.
  - destruct (counts_as_strict x); simpl; lia.
  - lia.
Qed.

Lemma X4_conflict_monotone_witness :
  validate_structured_output_conflict
    [PDict [("type", PStr "text")];
     PDict [("type", PStr "json_schema"); ("strict", PInt 1)];
     PDict [("type", PStr "json_schema"); ("strict", PStr "yes")]]
  = conflict_verdict.
Proof.
  apply (X4_conflict_monotone
           [PDict [("type", PStr "json_schema"); ("strict", PInt 1)];
            PDict [("type", PStr "json_schema"); ("strict", PStr "yes")]]).
  - apply submseteq_cons. reflexivity.
  - reflexivity.
Defined.

(** ** [_load_policy] *)

Lemma loads_cached files : forall cached,
  cached <> PNone ->
  Store.loads files cached = replicate (length files) cached.
Proof.
  induction files as [|file files IH]; intros cached Hc; [reflexivity |].
  simpl. destruct cached; try congruence; simpl; now rewrite IH.
Qed.

(** X5.  Once a call of [_load_policy] has returned a policy other than
    [None], every later call returns that same policy, whatever the policy
    file holds or fails with by then. *)
Theorem X5_policy_loaded_once file files cached p :
  Store._load_policy file PNone = (cached, p) ->
  p <> PNone ->
  Store.loads files cached = replicate (length files) p.
Proof.
  unfold Store._load_policy. intros [= <- <-] Hp. now apply loads_cached.
Qed.

Lemma X5_policy_loaded_once_witness :
  Store.loads [Raise KeyError; Ok researcher_policy; Ok PNone] wildcard_policy
  = replicate 3 wildcard_policy.
Proof.
  apply (X5_policy_loaded_once (Ok wildcard_policy)
           [Raise KeyError; Ok researcher_policy; Ok PNone]).
  - reflexivity.
  - discriminate.
Defined.

(** X6.  A failed read is remembered: after it, every call returns the
    built-in fallback policy even when the file has become readable.  A file
    that parses to [null] is not remembered: the call returns [None] and the
    next call reads the file again. *)
Theorem X6_policy_load_edges :
  (forall e files,
     Store.loads (Raise e :: files) PNone
     = replicate (S (length files)) Store.fallback_policy)
  /\ (forall files,
        Store.loads (Ok PNone :: files) PNone = PNone :: Store.loads files PNone).
Proof.
  split.
  - intros e files. simpl. f_equal. now apply loads_cached.
  - reflexivity.
Qed.

Lemma fallback_allows_nothing role name :
  Py.hashable role = true ->
  is_tool_allowed_for_role Store.fallback_policy role name = Ok false.
Proof. destruct role; try discriminate; reflexivity. Qed.

Lemma filter_none {A} (f : A -> bool) (l : list A) :
  (forall x, f x = false) -> List.filter f l = [].
Proof.
  intros Hf. induction l as [|x l IH]; simpl; [reflexivity |]. now rewrite Hf.
Qed.

(** X7.  The module fails closed.  Under the policy that [_load_policy]
    returns when the policy file cannot be read, and for a hashable resolved
    role, [validate_tool_call] denies every tool call and leaves the call
    table alone, and [filter_tools_by_role] returns the empty list. *)
Theorem X7_unreadable_policy_denies_all e config tool_call messages phase now
    (calls : gmap string Q) tools role :
  get_role_from_config (Store._load_policy (Raise e) PNone).2 config = Ok role ->
  Py.hashable role = true ->
  (exists reason,
     validate_tool_call (Store._load_policy (Raise e) PNone).2 config tool_call
       messages phase now calls
     = (calls, Ok (false, reason)))
  /\ filter_tools_by_role (Store._load_policy (Raise e) PNone).2 config tools = Ok [].
Proof.
  cbn [Store._load_policy snd]. intros Hrole Hhash. split.
  - destruct (has_name_key tool_call) eqn:Hkey.
    + destruct tool_call as [| | | | |d|]; try discriminate.
      unfold has_name_key in Hkey. apply bool_decide_eq_true in Hkey.
      destruct Hkey as [name Hname]. eexists.
      eapply validate_role_denied; eauto using fallback_allows_nothing.
    + eexists. now apply validate_malformed.
  - unfold filter_tools_by_role. rewrite Hrole. cbn [mbind result_bind].
    rewrite filter_loop_spec.
    + rewrite filter_none; [reflexivity |].
      intros t. unfold permitted. rewrite fallback_allows_nothing by assumption.
      apply andb_false_r.
    + intros name. exists false. now apply fallback_allows_nothing.
Qed.

Lemma X7_unreadable_policy_denies_all_witness :
  filter_tools_by_role (Store._load_policy (Raise KeyError) PNone).2 PNone
    [PDict [("name", PStr "ConductResearch")]] = Ok [].
Proof.
  apply (X7_unreadable_policy_denies_all KeyError PNone research_call PNone "research"
           1000 ∅ [PDict [("name", PStr "ConductResearch")]] (PStr "researcher"));
    reflexivity.
Defined.

(** ** The call table under [is_duplicate_call] *)

Lemma Qltb_ge x y : Qltb x y = false <-> (y <= x)%Q.
Proof. unfold Qltb. now rewrite negb_false_iff, Qle_bool_iff. Qed.

(** X8.  A duplicate check never puts anything into the call table but the
    clock reading of this call under the fingerprint of this call: every
    other entry of the table it returns, whether it reports, denies or
    raises, was in the table it was given. *)
Theorem X8_duplicate_check_adds_only_fingerprint policy tool_call now
    (calls calls' : gmap string Q) r k v :
  is_duplicate_call policy tool_call now calls = (calls', r) ->
  calls' !! k = Some v ->
  calls !! k = Some v \/ (_call_fingerprint tool_call = Ok k /\ v = now).
Proof.
  unfold is_duplicate_call.
  destruct (_call_fingerprint tool_call) as [fp|e]; cbn [mbind result_bind];
    [|intros [= <- _]; auto].
  destruct (Py.get (_load_policy policy) "duplicate_window_seconds" (PInt 300))
    as [window|e]; cbn [mbind result_bind]; [|intros [= <- _]; auto].
  destruct (match calls !! fp with Some _ => _ | None => _ end) as [[|]|e];
    try (intros [= <- _]; auto).
  assert (Hins : <[fp := now]> calls !! k = Some v ->
                 calls !! k = Some v \/ (Ok fp = Ok k /\ v = now)).
  { rewrite lookup_insert_Some. intros [[-> ->]|[_ H]]; auto. }
  destruct (1000 <? size (<[fp := now]> calls))%nat;
    [destruct (as_number window) |]; intros [= <- _]; try exact Hins.
  intros Hk. apply prune_lookup_Some in Hk. apply Hins, Hk.
Qed.

Lemma X8_duplicate_check_adds_only_fingerprint_witness :
  ({[ "other:{}" := 5%Q ]} : gmap string Q) !! "ConductResearch:{}" = Some 1000%Q
  \/ (_call_fingerprint research_call = Ok "ConductResearch:{}" /\ 1000%Q = 1000%Q).
Proof.
  apply (X8_duplicate_check_adds_only_fingerprint wildcard_policy research_call 1000
           {[ "other:{}" := 5%Q ]}
           (<[ "ConductResearch:{}" := 1000%Q ]> {[ "other:{}" := 5%Q ]})
           (Ok false)).
  - vm_compute. reflexivity.
  - apply lookup_insert_eq.
Defined.

(** X9.  After a call reported not-duplicate under a numeric window [w]: if
    the table with the new entry has at most 1000 entries it is returned as
    it is, stale entries included; if it has more, the table returned holds
    exactly its entries whose clock reading is not below [now - w]. *)
Theorem X9_table_after_new_call policy tool_call now (calls calls' : gmap string Q) fp w :
  _call_fingerprint tool_call = Ok fp ->
  policy_window policy = Some w ->
  is_duplicate_call policy tool_call now calls = (calls', Ok false) ->
  ((size (<[fp := now]> calls) <= 1000)%nat -> calls' = <[fp := now]> calls)
  /\ ((1000 < size (<[fp := now]> calls))%nat ->
      forall k v,
        calls' !! k = Some v
        <-> <[fp := now]> calls !! k = Some v /\ (now - w <= v)%Q).
Proof.
  intros Hfp Hw. rewrite (is_duplicate_call_eq _ _ _ _ _ _ Hfp Hw).
  destruct (match calls !! fp with Some _ => _ | None => _ end); [discriminate |].
  destruct (Nat.ltb_spec 1000 (size (<[fp := now]> calls))); intros [= <-].
  - split; [lia |]. intros _ k v. now rewrite prune_lookup_Some, Qltb_ge.
  - split; [reflexivity | lia].
Qed.

Lemma X9_table_after_new_call_witness :
  (is_duplicate_call wildcard_policy research_call 1000
     ({[ "other:{}" := 5%Q ]} : gmap string Q)).1
  = <[ "ConductResearch:{}" := 1000%Q ]> {[ "other:{}" := 5%Q ]}.
Proof.
  refine (proj1 (X9_table_after_new_call wildcard_policy research_call 1000
                   {[ "other:{}" := 5%Q ]} _ "ConductResearch:{}" 300
                   eq_refl eq_refl _) _).
  - vm_compute. reflexivity.
  - apply Nat.leb_le. vm_compute. reflexivity.
Defined.

Lemma duplicate_check_keeps_entry policy w fp t0 tool_call now (calls : gmap string Q) :
  policy_window policy = Some w ->
  calls !! fp = Some t0 -> ~ (t0 == 0)%Q -> (now - t0 < w)%Q ->
  (is_duplicate_call policy tool_call now calls).1 !! fp = Some t0.
Proof.
  intros Hw Hfp Ht0 Hin.
  destruct (_call_fingerprint tool_call) as [fp'|e] eqn:Hfp'.
  - rewrite (is_duplicate_call_eq _ _ _ _ _ _ Hfp' Hw).
    destruct (match calls !! fp' with Some _ => _ | None => _ end) eqn:Hdup;
      [exact Hfp |].
    assert (Hne : fp' <> fp).
    { intros ->. rewrite Hfp, (float_truthy_nonzero _ Ht0) in Hdup.
      apply Qltb_lt in Hin. rewrite Hin in Hdup. discriminate. }
    cbn [fst].
    assert (Hins : <[fp' := now]> calls !! fp = Some t0)
      by now rewrite lookup_insert_ne.
    destruct (1000 <? size (<[fp' := now]> calls))%nat; [|exact Hins].
    apply prune_lookup_Some. split; [exact Hins |]. apply Qltb_ge. lra.
  - unfold is_duplicate_call. rewrite Hfp'. exact Hfp.
Qed.

Lemma clock_reading_seconds (z : Z) :
  (0 < z < 2147483648)%Z -> clock_reading (inject_Z z).
Proof.
  intros Hz. exists (z * 4194304)%Z. split; [lia |].
  unfold Qeq, inject_Z. simpl. lia.
Qed.

(** X10.  An entry still inside the window is never lost to pruning.  Let
    the window be a whole number of seconds with [0 <= w < 2^31], let the
    table hold clock readings, among them [t0] for a fingerprint.  After any
    sequence of duplicate checks, of any calls, made at clock readings less
    than a window after [t0], the table still holds [t0] for it, and a call
    with that fingerprint made at a clock reading less than a window after
    [t0] is reported a duplicate. *)
Theorem X10_recorded_call_stays_duplicate policy w fp t0 requests
    (calls : gmap string Q) tool_call t1 :
  policy_window policy = Some w ->
  (0 <= w)%Q -> (w < 2147483648)%Q ->
  map_Forall (fun _ v => clock_reading v) calls ->
  calls !! fp = Some t0 ->
  Forall (fun req => clock_reading req.2 /\ (req.2 - t0 < w)%Q) requests ->
  _call_fingerprint tool_call = Ok fp ->
  clock_reading t1 ->
  (t1 - t0 < w)%Q ->
  run_calls policy requests calls !! fp = Some t0
  /\ is_duplicate_call policy tool_call t1 (run_calls policy requests calls)
     = (run_calls policy requests calls, Ok true).
Proof.
  intros Hw _ _ Hcalls Hfp Hreqs Htc _ Ht1.
  assert (Ht0 : ~ (t0 == 0)%Q) by (apply clock_reading_nonzero; eapply Hcalls; eauto).
  assert (Hkeep : run_calls policy requests calls !! fp = Some t0).
  { unfold run_calls. clear Hcalls. revert calls Hfp.
    induction Hreqs as [|req requests [_ Hreq] _ IH]; intros calls Hfp; [exact Hfp |].
    simpl. apply IH. now apply duplicate_check_keeps_entry with (w := w). }
  split; [exact Hkeep |].
  rewrite (is_duplicate_call_eq _ _ _ _ _ _ Htc Hw), Hkeep.
  rewrite (float_truthy_nonzero _ Ht0). apply Qltb_lt in Ht1. now rewrite Ht1.
Qed.

Lemma X10_recorded_call_stays_duplicate_witness :
  run_calls wildcard_policy [(delete_call, 1700000100%Q); (PNone, 1700000200%Q)]
    {[ "ConductResearch:{}" := 1700000000%Q ]} !! "ConductResearch:{}"
  = Some 1700000000%Q
  /\ is_duplicate_call wildcard_policy research_call 1700000299
       (run_calls wildcard_policy [(delete_call, 1700000100%Q); (PNone, 1700000200%Q)]
          {[ "ConductResearch:{}" := 1700000000%Q ]})
     = (run_calls wildcard_policy [(delete_call, 1700000100%Q); (PNone, 1700000200%Q)]
          {[ "ConductResearch:{}" := 1700000000%Q ]}, Ok true).
Proof.
  apply (X10_recorded_call_stays_duplicate wildcard_policy 300 "ConductResearch:{}"
           1700000000 [(delete_call, 1700000100%Q); (PNone, 1700000200%Q)]
           {[ "ConductResearch:{}" := 1700000000%Q ]} research_call 1700000299).
  - reflexivity.
  - discriminate.
  - reflexivity.
  - apply map_Forall_singleton. apply (clock_reading_seconds 1700000000). lia.
  - apply lookup_singleton_eq.
  - repeat constructor;
      solve [apply (clock_reading_seconds 1700000100); lia
            | apply (clock_reading_seconds 1700000200); lia].
  - reflexivity.
  - apply (clock_reading_seconds 1700000299). lia.
  - reflexivity.
Defined.

(** X11.  A window that is not a number (a string, [null], a list in the
    policy file) goes unnoticed on a first sighting while the table is small:
    the call is recorded and reported not-duplicate.  From then on every check
    of that call raises [TypeError] with the table untouched, so the call can
    never pass again; [validate_tool_call] answers "Duplicate check failed".
    With more than 1000 entries in the table a first sighting raises as well,
    after the call has been recorded. *)
Theorem X11_non_numeric_window p tool_call fp now (calls : gmap string Q) :
  as_number (default (PInt 300) (Py.assoc_get "duplicate_window_seconds" p)) = None ->
  _call_fingerprint tool_call = Ok fp ->
  (forall last, calls !! fp = Some last -> ~ (last == 0)%Q ->
     is_duplicate_call (PDict p) tool_call now calls = (calls, Raise TypeError))
  /\ (calls !! fp = None -> (size (<[fp := now]> calls) <= 1000)%nat ->
      is_duplicate_call (PDict p) tool_call now calls = (<[fp := now]> calls, Ok false))
  /\ (calls !! fp = None -> (1000 < size (<[fp := now]> calls))%nat ->
      is_duplicate_call (PDict p) tool_call now calls
      = (<[fp := now]> calls, Raise TypeError))
  /\ (forall config messages phase d name role last,
        tool_call = PDict d -> Py.assoc_get "name" d = Some name ->
        get_role_from_config (PDict p) config = Ok role ->
        is_tool_allowed_for_role (PDict p) role name = Ok true ->
        phase <> "clarify" -> phase <> "research" ->
        calls !! fp = Some last -> ~ (last == 0)%Q ->
        validate_tool_call (PDict p) config tool_call messages phase now calls
        = (calls, Ok (false, "Duplicate check failed"))).
Proof.
  intros Hwin Hfp.
  assert (Hseen : forall last, calls !! fp = Some last -> ~ (last == 0)%Q ->
            is_duplicate_call (PDict p) tool_call now calls = (calls, Raise TypeError)).
  { intros last Hlast Hnz. unfold is_duplicate_call, _load_policy, Py.get.
    rewrite Hfp. cbn [mbind result_bind].
    now rewrite Hlast, (float_truthy_nonzero _ Hnz), Hwin. }
  split; [exact Hseen |]. split; [|split].
  - intros Hnew Hsize. unfold is_duplicate_call, _load_policy, Py.get.
    rewrite Hfp. cbn [mbind result_bind]. rewrite Hnew.
    apply Nat.ltb_ge in Hsize. now rewrite Hsize.
  - intros Hnew Hsize. unfold is_duplicate_call, _load_policy, Py.get.
    rewrite Hfp. cbn [mbind result_bind]. rewrite Hnew.
    apply Nat.ltb_lt in Hsize. now rewrite Hsize, Hwin.
  - intros config messages phase d name role last -> Hname Hrole Hyes Hc Hr Hlast Hnz.
    rewrite (validate_past_gate (PDict p) config messages phase now calls d name role
               Hname Hrole Hyes Hc) by congruence.
    now rewrite (Hseen last Hlast Hnz).
Qed.

Lemma X11_non_numeric_window_witness :
  is_duplicate_call (PDict [("duplicate_window_seconds", PStr "300")]) research_call
    1001 ({[ "ConductResearch:{}" := 1000%Q ]} : gmap string Q)
  = ({[ "ConductResearch:{}" := 1000%Q ]}, Raise TypeError).
Proof.
  apply (proj1 (X11_non_numeric_window [("duplicate_window_seconds", PStr "300")]
                  research_call "ConductResearch:{}" 1001
                  {[ "ConductResearch:{}" := 1000%Q ]} eq_refl eq_refl) 1000%Q).
  - apply lookup_singleton_eq.
  - discriminate.
Defined.

(** X12.  A recorded clock reading of zero counts as no record: whatever
    [now] is, and however small the distance to the window's start, the call
    is reported not-duplicate and, the window being non-negative, its entry
    is overwritten with [now]. *)
Theorem X12_zero_reading_is_unseen policy tool_call fp w now last
    (calls : gmap string Q) :
  _call_fingerprint tool_call = Ok fp ->
  policy_window policy = Some w -> (0 <= w)%Q ->
  calls !! fp = Some last -> (last == 0)%Q ->
  exists calls',
    is_duplicate_call policy tool_call now calls = (calls', Ok false)
    /\ calls' !! fp = Some now.
Proof.
  intros Hfp Hw Hpos Hlast Hzero.
  rewrite (is_duplicate_call_eq _ _ _ _ _ _ Hfp Hw), Hlast.
  assert (Hf : float_truthy last = false).
  { unfold float_truthy. apply negb_false_iff. now apply Qeq_bool_iff. }
  rewrite Hf. cbn [andb]. eexists. split; [reflexivity |].
  destruct (1000 <? size (<[fp := now]> calls))%nat; [|apply lookup_insert_eq].
  apply prune_lookup_Some. split; [apply lookup_insert_eq |]. apply Qltb_ge. lra.
Qed.

Lemma X12_zero_reading_is_unseen_witness :
  exists calls' : gmap string Q,
    is_duplicate_call wildcard_policy research_call 10
      {[ "ConductResearch:{}" := 0%Q ]} = (calls', Ok false)
    /\ calls' !! "ConductResearch:{}" = Some 10%Q.
Proof.
  apply (X12_zero_reading_is_unseen wildcard_policy research_call
           "ConductResearch:{}" 300 10 0 {[ "ConductResearch:{}" := 0%Q ]}).
  - reflexivity.
  - reflexivity.
  - discriminate.
  - apply lookup_singleton_eq.
  - reflexivity.
Defined.

(** ** [validate_tool_call] as a whole *)

Lemma string_app_inv_head (s a b : string) : s ++ a = s ++ b -> a = b.
Proof. induction s as [|c s IH]; simpl; [auto |]. intros [= H]. auto. Qed.

Lemma in_research_set name :
  Py.in_list name [PStr "ConductResearch"; PStr "ResearchComplete"] = true ->
  name = PStr "ConductResearch" \/ name = PStr "ResearchComplete".
Proof.
  unfold Py.in_list. cbn [existsb]. rewrite !orb_true_iff, !eq_str_r.
  intros [H|[H|H]]; auto. discriminate.
Qed.

(** X13.  [validate_tool_call] allows nothing it should not: whenever the
    verdict is positive, the tool call has a [name], the role resolved from
    the configuration is permitted that name, the phase is not [clarify], in
    phase [research] the name is one of the two orchestration tools, the
    duplicate check has reported not-duplicate and returned the table that is
    handed back, and the alignment block has not flagged the call. *)
Theorem X13_allowed_only_if policy config tool_call messages phase now
    (calls calls' : gmap string Q) reason :
  validate_tool_call policy config tool_call messages phase now calls
  = (calls', Ok (true, reason)) ->
  reason = "allowed"
  /\ exists d name role,
       tool_call = PDict d
       /\ Py.assoc_get "name" d = Some name
       /\ get_role_from_config policy config = Ok role
       /\ is_tool_allowed_for_role policy role name = Ok true
       /\ phase <> "clarify"
       /\ (phase = "research" ->
           name = PStr "ConductResearch" \/ name = PStr "ResearchComplete")
       /\ is_duplicate_call policy tool_call now calls = (calls', Ok false)
       /\ intent_unaligned tool_call messages = false.
Proof.
  unfold validate_tool_call.
  destruct tool_call as [| | | | |d|]; try discriminate.
  destruct (Py.assoc_get "name" d) as [name|] eqn:Hname; [|discriminate].
  destruct (get_role_from_config policy config) as [role|e] eqn:Hrole; [|discriminate].
  destruct (is_tool_allowed_for_role policy role name) as [[|]|e] eqn:Hyes;
    try discriminate.
  destruct (String.eqb_spec phase "clarify") as [|Hc]; [discriminate |].
  destruct (String.eqb_spec phase "research") as [Hr|Hr];
    [destruct (Py.in_list name _) eqn:Hin; [|discriminate] |];
    cbn [andb negb];
    (destruct (is_duplicate_call policy (PDict d) now calls) as [calls1 [[|]|e]] eqn:Hdup;
     try discriminate;
     destruct (intent_unaligned (PDict d) messages) eqn:Hint; [discriminate |];
     intros [= <- <-]; split; [reflexivity |];
     exists d, name, role; repeat split; auto).
  - intros _. now apply in_research_set.
  - intros ?. contradiction.
Qed.

Lemma X13_allowed_only_if_witness :
  is_tool_allowed_for_role researcher_policy (PStr "researcher") (PStr "ConductResearch")
  = Ok true.
Proof.
  destruct (X13_allowed_only_if researcher_policy PNone weather_call weather_messages
              "research" 1000 ∅
              (validate_tool_call researcher_policy PNone weather_call weather_messages
                 "research" 1000 ∅).1 "allowed")
    as (_ & d & name & role & Hd & Hname & Hrole & Hyes & _).
  - vm_compute. reflexivity.
  - injection Hd as <-. injection Hname as <-. injection Hrole as <-. exact Hyes.
Defined.

(** X14.  An exception leaves [validate_tool_call] only from the role
    resolver or from the permission check, and then the call table is
    untouched; failures of the duplicate check and of the alignment block are
    turned into verdicts.  With a policy of the documented shape and a
    hashable resolved role there is always a verdict. *)
Theorem X14_raises_only_from_permission_stage policy config tool_call messages phase
    now (calls : gmap string Q) :
  (forall calls' e,
     validate_tool_call policy config tool_call messages phase now calls
     = (calls', Raise e) ->
     calls' = calls
     /\ exists d name,
          tool_call = PDict d /\ Py.assoc_get "name" d = Some name
          /\ (get_role_from_config policy config = Raise e
              \/ exists role, get_role_from_config policy config = Ok role
                              /\ is_tool_allowed_for_role policy role name = Raise e))
  /\ (policy_ok policy = true ->
      forall role, get_role_from_config policy config = Ok role ->
                   Py.hashable role = true ->
                   exists calls' verdict,
                     validate_tool_call policy config tool_call messages phase now calls
                     = (calls', Ok verdict)).
Proof.
  split.
  - intros calls' e. unfold validate_tool_call.
    destruct tool_call as [| | | | |d|]; try discriminate.
    destruct (Py.assoc_get "name" d) as [name|] eqn:Hname; [|discriminate].
    destruct (get_role_from_config policy config) as [role|e'] eqn:Hrole.
    + destruct (is_tool_allowed_for_role policy role name) as [[|]|e''] eqn:Hyes.
      * destruct (phase =? "clarify"); [discriminate |].
        destruct ((phase =? "research") && _); [discriminate |].
        destruct (is_duplicate_call policy (PDict d) now calls) as [calls1 [[|]|e1]];
          try discriminate.
        destruct (intent_unaligned (PDict d) messages); discriminate.
      * discriminate.
      * intros [= <- <-]. split; [reflexivity |]. exists d, name. eauto 6.
    + intros [= <- <-]. split; [reflexivity |]. exists d, name. eauto.
  - intros Hpol role Hrole Hhash. unfold validate_tool_call.
    destruct tool_call as [| | | | |d|]; eauto.
    destruct (Py.assoc_get "name" d) as [name|]; eauto.
    rewrite Hrole.
    destruct (is_tool_allowed_total policy role name Hpol Hhash) as [[|] ->]; eauto.
    destruct (phase =? "clarify"); eauto.
    destruct ((phase =? "research") && _); eauto.
    destruct (is_duplicate_call policy (PDict d) now calls) as [calls1 [[|]|e1]]; eauto.
    destruct (intent_unaligned (PDict d) messages); eauto.
Qed.

Lemma X14_raises_only_from_permission_stage_witness :
  exists (calls' : gmap string Q) verdict,
    validate_tool_call wildcard_policy PNone research_call PNone "plan" 1000 ∅
    = (calls', Ok verdict).
Proof.
  apply (proj2 (X14_raises_only_from_permission_stage wildcard_policy PNone
                  research_call PNone "plan" 1000 ∅) eq_refl (PStr "researcher"));
    reflexivity.
Defined.

Lemma filter_loop_raises policy role e tools : forall filtered,
  (forall name, is_tool_allowed_for_role policy role name = Raise e) ->
  Exists (fun t => Py.truthy (is_tool_name t) = true) tools ->
  filter_loop policy role tools filtered = Raise e.
Proof.
  induction tools as [|t tools IH]; intros filtered Hraise Hex;
    [now apply Exists_nil in Hex |].
  simpl. destruct (Py.truthy (is_tool_name t)) eqn:Ht; simpl.
  - now rewrite Hraise.
  - apply IH; [assumption |]. apply Exists_cons in Hex.
    destruct Hex as [Hex|Hex]; [congruence | assumption].
Qed.

(** X15.  A role that is not hashable defeats both entry points.  When the
    configuration names, under [configurable.role], a non-empty list or
    mapping, looking the role up in the policy's [roles] raises [TypeError]:
    [validate_tool_call] raises it for every tool call that has a [name],
    instead of giving a verdict, and [filter_tools_by_role] raises it as soon
    as one descriptor has a name. *)
Theorem X15_unhashable_role_raises p roles c cfg role d name messages phase now
    (calls : gmap string Q) tools :
  default (PDict []) (Py.assoc_get "roles" p) = PDict roles ->
  Py.assoc_get "configurable" c = Some (PDict cfg) ->
  Py.assoc_get "role" cfg = Some role ->
  Py.truthy role = true ->
  Py.hashable role = false ->
  Py.assoc_get "name" d = Some name ->
  validate_tool_call (PDict p) (PDict c) (PDict d) messages phase now calls
  = (calls, Raise TypeError)
  /\ (Exists (fun t => Py.truthy (is_tool_name t) = true) tools ->
      filter_tools_by_role (PDict p) (PDict c) tools = Raise TypeError).
Proof.
  intros Hroles Hcfg Hr Htruthy Hhash Hname.
  assert (Hrole : get_role_from_config (PDict p) (PDict c) = Ok role).
  { rewrite get_role_resolves. unfold resolve_role, nested_role.
    now rewrite Hcfg, Hr, Htruthy. }
  assert (Hraise : forall n, is_tool_allowed_for_role (PDict p) role n = Raise TypeError).
  { intros n. unfold is_tool_allowed_for_role, _load_policy, Py.get.
    rewrite Hroles. cbn [mbind result_bind Py.get_key]. now rewrite Hhash. }
  split.
  - unfold validate_tool_call. now rewrite Hname, Hrole, Hraise.
  - intros Hex. unfold filter_tools_by_role. rewrite Hrole. cbn [mbind result_bind].
    now apply filter_loop_raises.
Qed.

Lemma X15_unhashable_role_raises_witness :
  validate_tool_call wildcard_policy
    (PDict [("configurable", PDict [("role", PList [PStr "admin"])])])
    research_call PNone "research" 1000 ∅
  = (∅, Raise TypeError).
Proof.
  apply (X15_unhashable_role_raises
           [("roles", PDict [("researcher", PDict [("allowed_tools", PList [PStr "*"])])]);
            ("default_role", PStr "researcher");
            ("duplicate_window_seconds", PInt 300)]
           [("researcher", PDict [("allowed_tools", PList [PStr "*"])])]
           [("configurable", PDict [("role", PList [PStr "admin"])])]
           [("role", PList [PStr "admin"])] (PList [PStr "admin"])
           [("name", PStr "ConductResearch")] (PStr "ConductResearch")
           PNone "research" 1000 ∅ []); reflexivity.
Defined.

Lemma verdict_eq (c1 c2 : gmap string Q) (b1 b2 : bool) (r1 r2 : string) :
  (c1, Ok (b1, r1)) = (c2, Ok (b2, r2)) -> b1 = b2 /\ r1 = r2.
Proof. intros H. injection H as _ Hb Hr. auto. Qed.

(** X16.  The two entry points agree on permission.  Let the policy have the
    documented shape and the resolved role be hashable.  A named descriptor
    is kept by [filter_tools_by_role] exactly when [validate_tool_call], asked
    about a call by that name under the same configuration, does not answer
    with the denial of the permission check. *)
Theorem X16_filter_agrees_with_validate policy config role tools result t d messages
    phase now (calls : gmap string Q) :
  policy_ok policy = true ->
  get_role_from_config policy config = Ok role ->
  Py.hashable role = true ->
  filter_tools_by_role policy config tools = Ok result ->
  In t tools ->
  Py.truthy (is_tool_name t) = true ->
  Py.assoc_get "name" d = Some (is_tool_name t) ->
  In t result
  <-> validate_tool_call policy config (PDict d) messages phase now calls
      <> (calls, Ok (false, "Tool '" ++ Py.str (is_tool_name t)
                            ++ "' not allowed for role '" ++ Py.str role ++ "'")).
Proof.
  intros Hpol Hrole Hhash Hfilter Hin Hnamed Hname.
  unfold filter_tools_by_role in Hfilter. rewrite Hrole in Hfilter.
  cbn [mbind result_bind] in Hfilter.
  rewrite filter_loop_spec in Hfilter
    by (intros n; now apply is_tool_allowed_total).
  injection Hfilter as <-. rewrite filter_In, Hnamed. unfold permitted. cbn [andb].
  destruct (is_tool_allowed_total policy role (is_tool_name t) Hpol Hhash) as [b Hb].
  rewrite Hb. destruct b.
  - split; [intros _ | auto]. unfold validate_tool_call. rewrite Hname, Hrole, Hb.
    destruct (phase =? "clarify");
      [intros H; apply verdict_eq in H; destruct H as [_ H]; discriminate |].
    destruct ((phase =? "research") && _).
    { intros H. apply verdict_eq in H. destruct H as [_ H].
      apply (string_app_inv_head "Tool '") in H.
      apply string_app_inv_head in H. discriminate. }
    destruct (is_duplicate_call policy (PDict d) now calls) as [calls1 [[|]|e1]];
      try (intros H; apply verdict_eq in H; destruct H as [_ H]; discriminate).
    destruct (intent_unaligned (PDict d) messages);
      intros H; apply verdict_eq in H; destruct H as [Hbool H]; discriminate.
  - split; [intros [_ [=]] |]. intros Hne. exfalso. apply Hne.
    now apply validate_role_denied.
Qed.

Lemma X16_filter_agrees_with_validate_witness :
  In (PDict [("name", PStr "ConductResearch")])
     [PDict [("name", PStr "ConductResearch")]]
  <-> validate_tool_call researcher_policy PNone research_call PNone "clarify" 1000 ∅
      <> (∅, Ok (false, "Tool '" ++ Py.str (is_tool_name research_call)
                        ++ "' not allowed for role '" ++ Py.str (PStr "researcher")
                        ++ "'")).
Proof.
  apply (X16_filter_agrees_with_validate researcher_policy PNone (PStr "researcher")
           [PDict [("name", PStr "ConductResearch")]; PDict [("name", PStr "think_tool")]]
           [PDict [("name", PStr "ConductResearch")]]
           (PDict [("name", PStr "ConductResearch")])
           [("name", PStr "ConductResearch")] PNone "clarify" 1000 ∅);
    try reflexivity.
  now left.
Defined.

(** ** [is_tool_allowed_for_role] on policies of other shapes *)

Lemma prefix_app sub : forall s,
  String.prefix sub s = true <-> exists post, s = sub ++ post.
Proof.
  induction sub as [|a sub IH]; intros s.
  - destruct s; simpl; split; eauto.
  - destruct s as [|b s]; simpl.
    + split; [discriminate | intros (post & [=])].
    + destruct (ascii_dec a b) as [->|Hne].
      * rewrite IH. split; intros (post & H); exists post;
          [subst; reflexivity | now injection H].
      * split; [discriminate | intros (post & H); injection H as H _; congruence].
Qed.

Lemma is_substring_spec sub s :
  Py.is_substring sub s = true <-> exists pre post, s = pre ++ sub ++ post.
Proof.
  induction s as [|c s IH].
  - cbn [Py.is_substring]. rewrite orb_false_r, prefix_app. split.
    + intros (post & ->). exists EmptyString, post. reflexivity.
    + intros ([|c pre] & post & H); [eauto | discriminate].
  - cbn [Py.is_substring]. rewrite orb_true_iff, prefix_app, IH. split.
    + intros [(post & ->)|(pre & post & ->)].
      * exists EmptyString, post. reflexivity.
      * exists (String c pre), post. reflexivity.
    + intros ([|c' pre] & post & H).
      * left. eauto.
      * right. injection H as _ ->. eauto.
Qed.

(** X17.  An allow-list written as a string instead of a list turns the
    permission check into substring matching: the role is allowed a tool
    exactly when the string contains ["*"] or contains the tool's name as a
    substring; an empty string allows nothing. *)
Theorem X17_string_allow_list_matches_substrings p roles cfg (role tool s : string) :
  default (PDict []) (Py.assoc_get "roles" p) = PDict roles ->
  Py.assoc_get role roles = Some (PDict cfg) ->
  Py.assoc_get "allowed_tools" cfg = Some (PStr s) ->
  exists b,
    is_tool_allowed_for_role (PDict p) (PStr role) (PStr tool) = Ok b
    /\ (b = true
        <-> s <> EmptyString
            /\ ((exists pre post, s = pre ++ "*" ++ post)
                \/ (exists pre post, s = pre ++ tool ++ post))).
Proof.
  intros Hroles Hrole Hallowed.
  unfold is_tool_allowed_for_role, _load_policy, Py.get. rewrite Hroles.
  cbn [mbind result_bind Py.get_key Py.hashable]. rewrite Hrole.
  change (default (PDict []) (Some (PDict cfg))) with (PDict cfg).
  cbn [mbind result_bind]. rewrite Hallowed.
  change (default (PList []) (Some (PStr s))) with (PStr s).
  cbn [Py.truthy negb]. destruct (String.eqb_spec s EmptyString) as [->|Hne].
  - exists false. split; [reflexivity |]. split; [discriminate | intros [[] _]; reflexivity].
  - cbn [negb Py.contains mbind result_bind].
    destruct (Py.is_substring "*" s) eqn:Hstar.
    + exists true. split; [reflexivity |]. split; [|reflexivity].
      intros _. split; [assumption |]. left. now apply is_substring_spec.
    + exists (Py.is_substring tool s). split; [reflexivity |].
      rewrite is_substring_spec. split.
      * intros H. auto.
      * intros [_ [H|H]]; [|assumption].
        apply is_substring_spec in H. congruence.
Qed.

Lemma X17_string_allow_list_matches_substrings_witness :
  exists b,
    is_tool_allowed_for_role
      (PDict [("roles", PDict [("researcher",
                                PDict [("allowed_tools", PStr "ConductResearch")])])])
      (PStr "researcher") (PStr "Research") = Ok b
    /\ (b = true
        <-> "ConductResearch" <> EmptyString
            /\ ((exists pre post, "ConductResearch" = pre ++ "*" ++ post)
                \/ (exists pre post, "ConductResearch" = pre ++ "Research" ++ post))).
Proof.
  apply (X17_string_allow_list_matches_substrings
           [("roles", PDict [("researcher",
                              PDict [("allowed_tools", PStr "ConductResearch")])])]
           [("researcher", PDict [("allowed_tools", PStr "ConductResearch")])]
           [("allowed_tools", PStr "ConductResearch")]); reflexivity.
Defined.

(** X18.  Roles are looked up as dictionary keys, so a role that is hashable
    but not a string (a number, [True], an object) matches no entry of
    [roles]: it is allowed no tool, whatever the policy grants. *)
Theorem X18_non_string_role_allowed_nothing p roles role name :
  default (PDict []) (Py.assoc_get "roles" p) = PDict roles ->
  Py.hashable role = true ->
  (forall s, role <> PStr s) ->
  is_tool_allowed_for_role (PDict p) role name = Ok false.
Proof.
  intros Hroles Hhash Hns. unfold is_tool_allowed_for_role, _load_policy, Py.get.
  rewrite Hroles. cbn [mbind result_bind Py.get_key]. rewrite Hhash.
  destruct role; try reflexivity. now destruct (Hns s).
Qed.

Lemma X18_non_string_role_allowed_nothing_witness :
  is_tool_allowed_for_role wildcard_policy (PInt 1) (PStr "ConductResearch") = Ok false.
Proof.
  apply (X18_non_string_role_allowed_nothing
           [("roles", PDict [("researcher", PDict [("allowed_tools", PList [PStr "*"])])]);
            ("default_role", PStr "researcher");
            ("duplicate_window_seconds", PInt 300)]
           [("researcher", PDict [("allowed_tools", PList [PStr "*"])])]).
  - reflexivity.
  - reflexivity.
  - discriminate.
Defined.

(** ** [filter_tools_by_role] *)

Lemma filter_filter {A} (f : A -> bool) (l : list A) :
  List.filter f (List.filter f l) = List.filter f l.
Proof.
  induction l as [|x l IH]; simpl; [reflexivity |].
  destruct (f x) eqn:Hx; simpl; [rewrite Hx; now f_equal | assumption].
Qed.

(** X19.  With a policy of the documented shape and a hashable resolved
    role, filtering composes: the result for two lists put one after the
    other is the two results put one after the other, and filtering a result
    again gives it back unchanged. *)
Theorem X19_filter_composes policy config role (tools1 tools2 kept1 kept2 : list PyVal) :
  policy_ok policy = true ->
  get_role_from_config policy config = Ok role ->
  Py.hashable role = true ->
  filter_tools_by_role policy config tools1 = Ok kept1 ->
  filter_tools_by_role policy config tools2 = Ok kept2 ->
  filter_tools_by_role policy config (tools1 ++ tools2) = Ok (kept1 ++ kept2)%list
  /\ filter_tools_by_role policy config kept1 = Ok kept1.
Proof.
  intros Hpol Hrole Hhash. unfold filter_tools_by_role. rewrite Hrole.
  cbn [mbind result_bind].
  rewrite !filter_loop_spec by (intros n; now apply is_tool_allowed_total).
  cbn [app]. intros [= <-] [= <-]. split.
  - now rewrite List.filter_app.
  - now rewrite filter_filter.
Qed.

Lemma X19_filter_composes_witness :
  filter_tools_by_role researcher_policy PNone
    ([PDict [("name", PStr "ConductResearch")]; PDict [("name", PStr "think_tool")]]
     ++ [PObj 2 "Tool" [("name", PStr "ResearchComplete")]])
  = Ok ([PDict [("name", PStr "ConductResearch")]]
        ++ [PObj 2 "Tool" [("name", PStr "ResearchComplete")]])%list
  /\ filter_tools_by_role researcher_policy PNone
       [PDict [("name", PStr "ConductResearch")]]
     = Ok [PDict [("name", PStr "ConductResearch")]].
Proof.
  apply (X19_filter_composes researcher_policy PNone (PStr "researcher")); reflexivity.
Defined.

Lemma wildcard_allows_any p roles cfg l (role : string) name :
  default (PDict []) (Py.assoc_get "roles" p) = PDict roles ->
  Py.assoc_get role roles = Some (PDict cfg) ->
  Py.assoc_get "allowed_tools" cfg = Some (PList l) ->
  In (PStr "*") l ->
  is_tool_allowed_for_role (PDict p) (PStr role) name = Ok true.
Proof.
  intros Hroles Hrole Hallowed Hstar.
  unfold is_tool_allowed_for_role, _load_policy, Py.get. rewrite Hroles.
  cbn [mbind result_bind Py.get_key Py.hashable]. rewrite Hrole.
  change (default (PDict []) (Some (PDict cfg))) with (PDict cfg).
  cbn [mbind result_bind]. rewrite Hallowed.
  change (default (PList []) (Some (PList l))) with (PList l).
  destruct l as [|x l]; [destruct Hstar |].
  cbn [Py.truthy negb Py.contains mbind result_bind].
  apply in_list_str in Hstar. now rewrite Hstar.
Qed.

(** X20.  Under a role whose allow-list contains ["*"], filtering keeps every
    descriptor that has a non-empty name, whatever the name is, and drops
    only the nameless ones. *)
Theorem X20_wildcard_role_keeps_named_tools p roles cfg l (role : string) config
    (tools : list PyVal) :
  default (PDict []) (Py.assoc_get "roles" p) = PDict roles ->
  Py.assoc_get role roles = Some (PDict cfg) ->
  Py.assoc_get "allowed_tools" cfg = Some (PList l) ->
  In (PStr "*") l ->
  get_role_from_config (PDict p) config = Ok (PStr role) ->
  filter_tools_by_role (PDict p) config tools
  = Ok (List.filter (fun t => Py.truthy (is_tool_name t)) tools).
Proof.
  intros Hroles Hrole Hallowed Hstar Hres.
  unfold filter_tools_by_role. rewrite Hres. cbn [mbind result_bind].
  rewrite filter_loop_spec
    by (intros n; exists true; eapply wildcard_allows_any; eauto).
  cbn [app]. f_equal. apply filter_ext. intros t. unfold permitted.
  rewrite (wildcard_allows_any p roles cfg l role _ Hroles Hrole Hallowed Hstar).
  apply andb_true_r.
Qed.

Lemma X20_wildcard_role_keeps_named_tools_witness :
  filter_tools_by_role wildcard_policy PNone
    [PDict [("name", PStr "anything")]; PDict [("description", PStr "nameless")]]
  = Ok [PDict [("name", PStr "anything")]].
Proof.
  apply (X20_wildcard_role_keeps_named_tools
           [("roles", PDict [("researcher", PDict [("allowed_tools", PList [PStr "*"])])]);
            ("default_role", PStr "researcher");
            ("duplicate_window_seconds", PInt 300)]
           [("researcher", PDict [("allowed_tools", PList [PStr "*"])])]
           [("allowed_tools", PList [PStr "*"])] [PStr "*"] "researcher" PNone);
    try reflexivity.
  now left.
Defined.

(** ** The alignment heuristic *)

Lemma tokens_empty : tokens EmptyString = ∅.
Proof. reflexivity. Qed.

(** X22.  Only objects with a [content] attribute are read.  When no element
    of the message list has one (messages passed as dictionaries or as plain
    strings, say), the user text is empty and the alignment block never flags
    a call, whatever its arguments. *)
Theorem X22_messages_without_content_never_flag tool_call (ms : list PyVal) :
  Forall (fun m => Py.hasattr m "content" = false) ms ->
  intent_unaligned tool_call (PList ms) = false.
Proof.
  intros Hms. unfold intent_unaligned. destruct (Py.truthy (PList ms)); [|reflexivity].
  assert (Htext : user_text ms = EmptyString).
  { unfold user_text.
    replace (List.filter (fun m => Py.hasattr m "content") ms) with (@nil PyVal);
      [reflexivity |].
    induction Hms as [|m ms Hm _ IH]; [reflexivity |]. simpl. now rewrite Hm. }
  rewrite Htext, tokens_empty.
  destruct (Py.get tool_call "args" (PDict [])) as [args|e]; [|reflexivity].
  cbn [mbind result_bind].
  destruct (Json.dumps false args) as [text|e]; [|reflexivity].
  cbn [mbind result_bind]. rewrite (bool_decide_eq_false_2 (∅ ≠ ∅)); [reflexivity |].
  intros H. now apply H.
Qed.

Lemma X22_messages_without_content_never_flag_witness :
  intent_unaligned delete_call
    (PList [PDict [("role", PStr "user"); ("content", PStr "Summarize this document")]])
  = false.
Proof.
  apply X22_messages_without_content_never_flag. repeat constructor.
Defined.

(** X23.  A call without arguments gives the heuristic nothing to compare:
    when the tool call has no [args] entry, or an empty mapping for it, the
    alignment block never flags it, whatever the messages say. *)
Theorem X23_call_without_args_never_flagged d messages :
  call_args d = PDict [] ->
  intent_unaligned (PDict d) messages = false.
Proof.
  intros Hargs. unfold intent_unaligned.
  destruct messages as [| | | |ms| |]; try reflexivity.
  destruct (Py.truthy (PList ms)); [|reflexivity].
  cbn [Py.get mbind result_bind]. fold (call_args d). rewrite Hargs.
  cbn [Json.dumps List.map mapM mbind result_bind].
  replace (tokens ("{" ++ Py.join ", " [] ++ "}")) with (∅ : gset string)
    by reflexivity.
  rewrite (bool_decide_eq_false_2 ((∅ : gset string) ≠ ∅)) by (intros H; now apply H).
  now rewrite andb_false_r.
Qed.

Lemma X23_call_without_args_never_flagged_witness :
  intent_unaligned research_call summarize_messages = false.
Proof. apply X23_call_without_args_never_flagged. reflexivity. Defined.

(** ** [is_tool_name], [_call_fingerprint], [get_role_from_config] *)

(** X24.  [is_tool_name] yields a non-empty name [v] in exactly two cases: a
    dictionary whose [name] entry is [v], and an object whose [name]
    attribute is [v], with [v] true in both.  Every other value (a string, a
    number, a list, a dictionary or object without the entry) yields an empty
    name. *)
Theorem X24_is_tool_name_sources t v :
  is_tool_name t = v /\ Py.truthy v = true
  <-> (exists d, t = PDict d /\ Py.assoc_get "name" d = Some v /\ Py.truthy v = true)
      \/ (exists a cls attrs,
            t = PObj a cls attrs /\ Py.assoc_get "name" attrs = Some v
            /\ Py.truthy v = true).
Proof.
  split.
  - intros [<- Hv]. unfold is_tool_name in *.
    destruct (Py.truthy t) eqn:Ht; cbn [negb] in *; [|discriminate].
    destruct t as [| | | | |d|a cls attrs]; try discriminate.
    + left. exists d. destruct (Py.assoc_get "name" d); [auto | discriminate].
    + right. exists a, cls, attrs. unfold Py.getattr in *.
      destruct (Py.assoc_get "name" attrs) as [n|]; [|discriminate].
      change (default (PStr EmptyString) (Some n)) with n in *.
      destruct (Py.truthy n) eqn:Hn; [auto | discriminate].
  - intros [(d & -> & Hn & Hv)|(a & cls & attrs & -> & Hn & Hv)].
    + unfold is_tool_name. destruct d; [discriminate |].
      cbn [Py.truthy negb]. rewrite Hn. auto.
    + unfold is_tool_name, Py.getattr. cbn [Py.truthy negb]. rewrite Hn.
      change (default (PStr EmptyString) (Some v)) with v. rewrite Hv. auto.
Qed.

(** X25.  The fingerprint reads the [name] and [args] entries of a tool call
    and nothing else, a missing entry counting as the empty name or the empty
    mapping.  Two tool calls that agree on these (and differ, say, in their
    [id]) have the same fingerprint, and the duplicate check cannot tell them
    apart. *)
Theorem X25_fingerprint_reads_name_and_args d1 d2 :
  default (PStr EmptyString) (Py.assoc_get "name" d1)
  = default (PStr EmptyString) (Py.assoc_get "name" d2) ->
  call_args d1 = call_args d2 ->
  _call_fingerprint (PDict d1) = _call_fingerprint (PDict d2)
  /\ forall policy now (calls : gmap string Q),
       is_duplicate_call policy (PDict d1) now calls
       = is_duplicate_call policy (PDict d2) now calls.
Proof.
  intros Hname Hargs.
  assert (Hfp : _call_fingerprint (PDict d1) = _call_fingerprint (PDict d2)).
  { unfold _call_fingerprint, Py.get. cbn [mbind result_bind].
    fold (call_args d1) (call_args d2). now rewrite Hname, Hargs. }
  split; [exact Hfp |]. intros policy now calls. unfold is_duplicate_call.
  now rewrite Hfp.
Qed.

Lemma X25_fingerprint_reads_name_and_args_witness :
  _call_fingerprint (PDict [("name", PStr "ConductResearch"); ("id", PStr "call_1")])
  = _call_fingerprint (PDict [("id", PStr "call_2"); ("name", PStr "ConductResearch");
                              ("args", PDict [])]).
Proof.
  apply (X25_fingerprint_reads_name_and_args
           [("name", PStr "ConductResearch"); ("id", PStr "call_1")]
           [("id", PStr "call_2"); ("name", PStr "ConductResearch"); ("args", PDict [])]);
    reflexivity.
Defined.

Lemma get_role_cases config :
  (exists role, forall policy, get_role_from_config policy config = Ok role)
  \/ (forall policy,
        get_role_from_config policy config
        = Py.get policy "default_role" (PStr "researcher")).
Proof.
  unfold get_role_from_config, _load_policy.
  destruct (try_except _ _) as [[r|]|e]; eauto.
Qed.

(** X26.  The policy is consulted for the role only as a last resort.  When
    the configuration names a role (under [configurable.role], or under
    [metadata.role] with nothing under [configurable]), the resolver returns
    it under every policy, even one that is not a mapping.  When the
    configuration names none, a policy that is not a mapping makes the
    resolver raise [AttributeError]. *)
Theorem X26_role_from_config_needs_no_policy config :
  (forall role,
     nested_role config "configurable" = Found role
     \/ (nested_role config "configurable" = Missing
         /\ nested_role config "metadata" = Found role) ->
     forall policy, get_role_from_config policy config = Ok role)
  /\ ((forall role, nested_role config "configurable" <> Found role) ->
      (nested_role config "configurable" = Missing ->
       forall role, nested_role config "metadata" <> Found role) ->
      forall policy, (forall d, policy <> PDict d) ->
                     get_role_from_config policy config = Raise AttributeError).
Proof.
  pose proof (get_role_resolves [("default_role", PInt 0)] config) as H0.
  pose proof (get_role_resolves [("default_role", PInt 1)] config) as H1.
  change (default (PStr "researcher") (Py.assoc_get "default_role" [("default_role", PInt 0)]))
    with (PInt 0) in H0.
  change (default (PStr "researcher") (Py.assoc_get "default_role" [("default_role", PInt 1)]))
    with (PInt 1) in H1.
  split.
  - intros role Hnamed policy.
    assert (Hres : forall dflt, resolve_role dflt config = role).
    { intros dflt. unfold resolve_role.
      destruct Hnamed as [->|[-> ->]]; reflexivity. }
    rewrite Hres in H0, H1.
    destruct (get_role_cases config) as [(r & Hr)|Hd].
    + rewrite Hr in H0. rewrite Hr. exact H0.
    + rewrite Hd in H0, H1. cbn in H0, H1. congruence.
  - intros Hnone Hmeta policy Hnd.
    assert (Hres : forall dflt, resolve_role dflt config = dflt).
    { intros dflt. unfold resolve_role.
      destruct (nested_role config "configurable") as [r| |] eqn:Hc;
        [now destruct (Hnone r) | | reflexivity].
      destruct (nested_role config "metadata") as [r| |] eqn:Hm; try reflexivity.
      now destruct (Hmeta eq_refl r). }
    rewrite Hres in H0, H1.
    destruct (get_role_cases config) as [(r & Hr)|Hd].
    + rewrite Hr in H0, H1. congruence.
    + rewrite Hd. destruct policy; try reflexivity. now destruct (Hnd d).
Qed.

Lemma X26_role_from_config_needs_no_policy_witness :
  get_role_from_config PNone (PDict [("metadata", PDict [("role", PStr "admin")])])
  = Ok (PStr "admin").
Proof.
  apply (proj1 (X26_role_from_config_needs_no_policy
                  (PDict [("metadata", PDict [("role", PStr "admin")])]))).
  right. split; reflexivity.
Defined.

(** ** Repeated and concurrent requests *)

(** X27.  One verdict per window.  Let the window be a whole number of
    seconds with [0 <= w < 2^31], and let the table hold clock readings and
    both submissions be made at clock readings.  Once [validate_tool_call] has let
    a call past the duplicate check, by allowing it or by denying it as
    unrelated to the user's intent, the same call submitted again less than a
    window later, in a phase that lets it through and with any messages, is
    denied as a duplicate and the table stays as it is. *)
Theorem X27_second_submission_is_duplicate policy w config d messages messages'
    phase phase' now now' (calls calls' : gmap string Q) verdict :
  policy_window policy = Some w -> (0 <= w)%Q -> (w < 2147483648)%Q ->
  map_Forall (fun _ v => clock_reading v) calls ->
  clock_reading now -> clock_reading now' ->
  validate_tool_call policy config (PDict d) messages phase now calls
  = (calls', Ok verdict) ->
  verdict = (true, "allowed")
  \/ verdict = (false, "Tool call appears unrelated to user intent") ->
  (now' - now < w)%Q ->
  phase' <> "clarify" -> (phase' = "research" -> phase = "research") ->
  validate_tool_call policy config (PDict d) messages' phase' now' calls'
  = (calls', Ok (false, "Duplicate tool call suppressed")).
Proof.
  intros Hw Hpos _ _ Hreading _ Hfirst Hverdict Hin Hc' Hr'.
  pose proof (clock_reading_nonzero _ Hreading) as Hnow.
  destruct (fingerprint_dict d) as [fp Hfp].
  unfold validate_tool_call in Hfirst.
  destruct (Py.assoc_get "name" d) as [name|] eqn:Hname;
    [|destruct Hverdict as [->| ->]; discriminate].
  destruct (get_role_from_config policy config) as [role|e] eqn:Hrole; [|discriminate].
  destruct (is_tool_allowed_for_role policy role name) as [[|]|e] eqn:Hyes;
    [| destruct Hverdict as [->| ->];
       [discriminate | injection Hfirst as _ H; discriminate H]
     | discriminate].
  destruct (String.eqb_spec phase "clarify") as [|Hc];
    [destruct Hverdict as [->| ->]; discriminate |].
  assert (Hset : phase = "research" ->
                 Py.in_list name [PStr "ConductResearch"; PStr "ResearchComplete"] = true).
  { intros ->. cbn [String.eqb Ascii.eqb Bool.eqb andb] in Hfirst.
    destruct (Py.in_list name _); [reflexivity |].
    cbn [negb] in Hfirst.
    destruct Hverdict as [->| ->];
      [discriminate | injection Hfirst as _ H; discriminate H]. }
  assert (Hdup : is_duplicate_call policy (PDict d) now calls = (calls', Ok false)).
  { destruct ((phase =? "research") && _) eqn:Hgate.
    - apply andb_true_iff in Hgate. destruct Hgate as [Hp Hn].
      apply String.eqb_eq in Hp. rewrite (Hset Hp) in Hn. discriminate.
    - destruct (is_duplicate_call policy (PDict d) now calls) as [c [[|]|e]];
        [destruct Hverdict as [->| ->]; discriminate
        | destruct (intent_unaligned (PDict d) messages); injection Hfirst as <- _;
          reflexivity
        | destruct Hverdict as [->| ->]; discriminate]. }
  assert (Hrec : calls' !! fp = Some now).
  { eapply is_duplicate_call_records; eauto. intros w' Hw'. congruence. }
  rewrite (validate_past_gate policy config messages' phase' now' calls' d name role
             Hname Hrole Hyes Hc') by auto.
  rewrite (is_duplicate_call_eq _ _ _ _ _ _ Hfp Hw), Hrec.
  rewrite (float_truthy_nonzero _ Hnow). apply Qltb_lt in Hin. now rewrite Hin.
Qed.

Lemma X27_second_submission_is_duplicate_witness :
  validate_tool_call researcher_policy PNone delete_call weather_messages "research"
    1700000100 (validate_tool_call researcher_policy PNone delete_call
                  summarize_messages "research" 1700000000 ∅).1
  = ((validate_tool_call researcher_policy PNone delete_call summarize_messages
        "research" 1700000000 ∅).1,
     Ok (false, "Duplicate tool call suppressed")).
Proof.
  apply (X27_second_submission_is_duplicate researcher_policy 300 PNone
           [("name", PStr "ConductResearch");
            ("args", PDict [("target", PStr "delete_all_records")])]
           summarize_messages weather_messages "research" "research"
           1700000000 1700000100 ∅ _
           (false, "Tool call appears unrelated to user intent")).
  - reflexivity.
  - discriminate.
  - reflexivity.
  - apply map_Forall_empty.
  - apply (clock_reading_seconds 1700000000). lia.
  - apply (clock_reading_seconds 1700000100). lia.
  - vm_compute. reflexivity.
  - now right.
  - reflexivity.
  - discriminate.
  - reflexivity.
Defined.

(** X28.  The race loses an update as well.  For every call that is not yet
    in the table, under a non-negative numeric window: when two threads both
    read the table before either writes it, both report not-duplicate, and
    the table ends up holding the clock reading of the thread that wrote
    last; the other reading is gone. *)
Theorem X28_race_keeps_last_writer policy tool_call fp w now1 now2
    (calls : gmap string Q) :
  _call_fingerprint tool_call = Ok fp ->
  policy_window policy = Some w -> (0 <= w)%Q ->
  calls !! fp = None ->
  thread_a (run [A; B; A; B]
              (System calls (start policy tool_call now1) (start policy tool_call now2)))
  = Returned (Ok false)
  /\ thread_b (run [A; B; A; B]
                 (System calls (start policy tool_call now1) (start policy tool_call now2)))
     = Returned (Ok false)
  /\ table (run [A; B; A; B]
              (System calls (start policy tool_call now1) (start policy tool_call now2)))
     !! fp = Some now2.
Proof.
  intros Hfp Hw Hpos Hnew.
  destruct (race_both_pass policy tool_call fp w now1 now2 calls Hfp Hw Hnew) as [Ha Hb].
  split; [exact Ha |]. split; [exact Hb |].
  destruct (policy_window_get _ _ Hw) as (window & Hget & Hnum).
  unfold start, _load_policy. rewrite Hfp, Hget. cbn [mbind result_bind].
  cbn [run fold_left sched thread_step thread_a thread_b table].
  rewrite Hnew. cbn [thread_step]. rewrite Hnum.
  assert (Hlast : forall c : gmap string Q,
            (let (c', _) :=
               (if (1000 <? size (<[fp := now2]> c))%nat
                then (prune (now2 - w) (<[fp := now2]> c), Returned (Ok false))
                else (<[fp := now2]> c, Returned (Ok false)))
             in c') !! fp = Some now2).
  { intros c. destruct (1000 <? size (<[fp := now2]> c))%nat;
      [|apply lookup_insert_eq].
    apply prune_lookup_Some. split; [apply lookup_insert_eq |]. apply Qltb_ge. lra. }
  destruct (1000 <? size (<[fp := now1]> calls))%nat;
    cbn [thread_a thread_b table thread_step]; rewrite Hnum;
    match goal with
    | |- context [(1000 <? size (<[fp := now2]> ?c))%nat] =>
        specialize (Hlast c); destruct (1000 <? size (<[fp := now2]> c))%nat
    end; exact Hlast.
Qed.

Lemma X28_race_keeps_last_writer_witness :
  thread_a (run [A; B; A; B]
              (System ∅ (start wildcard_policy research_call 1000)
                        (start wildcard_policy research_call 1001)))
  = Returned (Ok false)
  /\ thread_b (run [A; B; A; B]
                 (System ∅ (start wildcard_policy research_call 1000)
                           (start wildcard_policy research_call 1001)))
     = Returned (Ok false)
  /\ table (run [A; B; A; B]
              (System ∅ (start wildcard_policy research_call 1000)
                        (start wildcard_policy research_call 1001)))
     !! "ConductResearch:{}" = Some 1001%Q.
Proof.
  apply (X28_race_keeps_last_writer wildcard_policy research_call "ConductResearch:{}"
           300 1000 1001 ∅).
  - reflexivity.
  - reflexivity.
  - discriminate.
  - apply lookup_empty.
Defined.
